(** * FirmeAPI client: request construction and error classification

    A shallow embedding of [src/client.ts] and [src/errors.ts] of the
    firmeapi Node.js SDK, and the properties of its request/response layer.

    Conventions of the embedding.
    - A JavaScript string is the [string] of its UTF-8 bytes, which a
      well-formed string (one without lone surrogates) has.  Every test
      the client runs on a string (emptiness, the digit class of
      [cleanCui], the form-urlencoded byte classes) gives the same answer
      on the bytes as on the UTF-16 code units.
    - A JavaScript number is a [JsNumber]: not-a-number, an infinity, a
      zero, or a finite value given by its shortest decimal digits and
      decimal exponent, which is how [Number_toString] prints it.  An HTTP
      status code is an integer [Z].
    - A decoded JSON body is a [JsValue]; the value [JUndefined] only
      arises from reading a property that an object does not have.
    - [async] functions run to completion; the transport ([fetch]) is an
      oracle from the request to what the exchange produced, and every
      operation returns the list of requests it handed to that oracle. *)

From Stdlib Require Import ZArith String Ascii List Bool Lia DecimalString DecimalPos DecimalZ.
From stdpp Require Import base option gmap strings.

Import ListNotations.
Set Warnings "-register-all".
Local Open Scope string_scope.
Local Open Scope Z_scope.

(** ** JavaScript numbers *)

(** The decimal digits of a finite number that is not zero, as
    [Number::toString] takes them: as few as denote the number, so the
    first and the last are not zero. *)
Inductive NonZeroDigit : Type := d1 | d2 | d3 | d4 | d5 | d6 | d7 | d8 | d9.
Inductive Digit : Type := d0 | nz (d : NonZeroDigit).

Record Mantissa : Type := {
  first : NonZeroDigit;
  more : option (list Digit * NonZeroDigit)
}.

(** [Finite negative m n] is the number with digits [m] right after the
    decimal point, times 10^[n]: 30000 has the digit 3 and [n = 5], 1.5
    the digits 1, 5 and [n = 1]. *)
Inductive JsNumber : Type :=
| NaN
| Infinity (negative : bool)
| Zero (negative : bool)
| Finite (negative : bool) (m : Mantissa) (n : Z).

(** [ToBoolean] of a number. *)
Definition number_truthy (x : JsNumber) : bool :=
  match x with
  | NaN | Zero _ => false
  | _ => true
  end.

Definition mantissa_digits (m : Mantissa) : list Digit :=
  nz (first m) ::
  match more m with
  | None => []
  | Some (middle, last) => middle ++ [nz last]
  end.

Definition digit_char (d : Digit) : ascii :=
  match d with
  | d0 => "0" | nz d1 => "1" | nz d2 => "2" | nz d3 => "3" | nz d4 => "4"
  | nz d5 => "5" | nz d6 => "6" | nz d7 => "7" | nz d8 => "8" | nz d9 => "9"
  end%char.

Definition digits_string (ds : list Digit) : string :=
  string_of_list_ascii (map digit_char ds).

Definition zeros (n : Z) : string :=
  string_of_list_ascii (repeat "0"%char (Z.to_nat n)).

(** An integer in plain decimal digits. *)
Definition decimal (n : Z) : string := NilZero.string_of_int (Z.to_int n).

(** [String(x)]: [Number::toString] in radix 10.  With [k] digits and
    exponent [n]: an integer up to 21 digits is written out; a decimal
    point falls inside the digits when [0 < n <= 21]; up to six zeros
    follow ["0."] when [-6 < n <= 0]; everything else takes the exponent
    form. *)
Definition Number_toString (x : JsNumber) : string :=
  match x with
  | NaN => "NaN"
  | Zero _ => "0"
  | Infinity negative => (if negative then "-" else "") +:+ "Infinity"
  | Finite negative m n =>
      let ds := mantissa_digits m in
      let k := Z.of_nat (length ds) in
      (if negative then "-" else "") +:+
      if (k <=? n) && (n <=? 21) then digits_string ds +:+ zeros (n - k)
      else if (0 <? n) && (n <=? 21) then
        digits_string (take (Z.to_nat n) ds) +:+ "." +:+ digits_string (drop (Z.to_nat n) ds)
      else if (-6 <? n) && (n <=? 0) then "0." +:+ zeros (- n) +:+ digits_string ds
      else
        let e := n - 1 in
        let exponent := (if e <? 0 then "-" else "+") +:+ decimal (Z.abs e) in
        match ds with
        | [d] => digits_string [d] +:+ "e" +:+ exponent
        | d :: rest => digits_string [d] +:+ "." +:+ digits_string rest +:+ "e" +:+ exponent
        | [] => ""
        end
  end.

(** The number of an integer literal of the source. *)
Fixpoint uint_digits (u : Decimal.uint) : list Digit :=
  match u with
  | Decimal.Nil => []
  | Decimal.D0 r => d0 :: uint_digits r
  | Decimal.D1 r => nz d1 :: uint_digits r
  | Decimal.D2 r => nz d2 :: uint_digits r
  | Decimal.D3 r => nz d3 :: uint_digits r
  | Decimal.D4 r => nz d4 :: uint_digits r
  | Decimal.D5 r => nz d5 :: uint_digits r
  | Decimal.D6 r => nz d6 :: uint_digits r
  | Decimal.D7 r => nz d7 :: uint_digits r
  | Decimal.D8 r => nz d8 :: uint_digits r
  | Decimal.D9 r => nz d9 :: uint_digits r
  end.

Fixpoint drop_zeros (ds : list Digit) : list Digit :=
  match ds with
  | d0 :: rest => drop_zeros rest
  | _ => ds
  end.

Definition mantissa_of (ds : list Digit) : option Mantissa :=
  match ds, drop_zeros (rev ds) with
  | nz f :: _, [_] => Some {| first := f; more := None |}
  | nz f :: _, nz l :: middle => Some {| first := f; more := Some (tail (rev middle), l) |}
  | _, _ => None
  end.

Definition integer (z : Z) : JsNumber :=
  match z with
  | 0 => Zero false
  | Zpos p | Zneg p =>
      let ds := uint_digits (Pos.to_uint p) in
      match mantissa_of ds with
      | Some m => Finite (z <? 0) m (Z.of_nat (length ds))
      | None => NaN
      end
  end.
Arguments integer : simpl never.

(** ** JavaScript values *)

Inductive JsValue : Type :=
| JUndefined
| JNull
| JBool (b : bool)
| JNum (n : JsNumber)
| JStr (s : string)
| JArr (items : list JsValue)
| JObj (fields : list (string * JsValue)).

(** [ToBoolean]: what [||], [!] and [if] test. *)
Definition truthy (v : JsValue) : bool :=
  match v with
  | JUndefined | JNull => false
  | JBool b => b
  | JNum n => number_truthy n
  | JStr s => negb (String.eqb s "")
  | JArr _ | JObj _ => true
  end.

(** [a || b] *)
Definition js_or (a b : JsValue) : JsValue := if truthy a then a else b.

(** [a ?? b]: only [undefined] and [null] give way to [b]. *)
Definition nullish (v : JsValue) : bool :=
  match v with
  | JUndefined | JNull => true
  | _ => false
  end.

Definition js_coalesce (a b : JsValue) : JsValue := if nullish a then b else a.

(** [a === s] for a string literal [s]. *)
Definition strict_eq_str (a : JsValue) (s : string) : bool :=
  match a with
  | JStr t => String.eqb t s
  | _ => false
  end.

(** The own property [k] of a decoded object, when it has one.  The list
    holds the object's properties, each name once. *)
Fixpoint lookup_field (fields : list (string * JsValue)) (k : string) : option JsValue :=
  match fields with
  | [] => None
  | (k', v) :: rest => if String.eqb k' k then Some v else lookup_field rest k
  end.

(** Reading a property the object does not have gives [undefined]. *)
Definition own_property (fields : list (string * JsValue)) (k : string) : JsValue :=
  default JUndefined (lookup_field fields k).

(** [ToString], as the [Error] constructor applies it to its message;
    [None] is the [TypeError] of a value that has no primitive form.  A
    decoded object prints the tag of [Object.prototype.toString], unless it
    has an own property [toString]: that property is no function, and
    [valueOf] gives back the object, so the conversion fails.  An array
    prints its items separated by commas, [null] and [undefined] items
    empty, and fails when an item fails. *)
Fixpoint ToString (v : JsValue) : option string :=
  match v with
  | JUndefined => Some "undefined"
  | JNull => Some "null"
  | JBool true => Some "true"
  | JBool false => Some "false"
  | JNum n => Some (Number_toString n)
  | JStr s => Some s
  | JObj fields =>
      match lookup_field fields "toString" with
      | Some _ => None
      | None => Some "[object Object]"
      end
  | JArr items =>
      let item x := if nullish x then Some "" else ToString x in
      (fix join (l : list JsValue) : option string :=
         match l with
         | [] => Some ""
         | [x] => item x
         | x :: rest =>
             match item x, join rest with
             | Some a, Some b => Some (a +:+ "," +:+ b)
             | _, _ => None
             end
         end) items
  end.

(** [v.k] for the property names the client reads ([message], [error],
    [code], [data] and the snake_case counters): none of them is defined
    on a built-in prototype, so only an object can answer with something
    else than [undefined]; reading from [null] or [undefined] raises a
    [TypeError], which is [None] here. *)
Definition get_property (v : JsValue) (k : string) : option JsValue :=
  match v with
  | JUndefined | JNull => None
  | JObj fields => Some (own_property fields k)
  | _ => Some JUndefined
  end.

(** ** The typed failures ([src/errors.ts]) *)

Module Errors.

(** One constructor per exported subclass of [FirmeApiError], carrying
    the arguments its constructor receives.  [message] has been through
    [Error]'s [ToString]; [code] and the counters are stored as given. *)
Inductive FirmeApiError : Type :=
| AuthenticationError (message : string) (code : JsValue)
| NotFoundError (message : string) (code : JsValue)
| RateLimitError (message : string) (code : JsValue)
    (retryAfter currentUsage limit : JsValue)
| InsufficientCreditsError (message : string) (code : JsValue)
    (availableCredits requiredCredits : JsValue)
| ValidationError (message : string) (code : JsValue)
| ApiError (message : string) (code : JsValue) (statusCode : Z)
| NetworkError (message : string)
| TimeoutError (message : string).

Definition name (e : FirmeApiError) : string :=
  match e with
  | AuthenticationError _ _ => "AuthenticationError"
  | NotFoundError _ _ => "NotFoundError"
  | RateLimitError _ _ _ _ _ => "RateLimitError"
  | InsufficientCreditsError _ _ _ _ => "InsufficientCreditsError"
  | ValidationError _ _ => "ValidationError"
  | ApiError _ _ _ => "ApiError"
  | NetworkError _ => "NetworkError"
  | TimeoutError _ => "TimeoutError"
  end.

Definition message (e : FirmeApiError) : string :=
  match e with
  | AuthenticationError m _ | NotFoundError m _ | RateLimitError m _ _ _ _
  | InsufficientCreditsError m _ _ _ | ValidationError m _ | ApiError m _ _
  | NetworkError m | TimeoutError m => m
  end.

Definition code (e : FirmeApiError) : JsValue :=
  match e with
  | AuthenticationError _ c | NotFoundError _ c | RateLimitError _ c _ _ _
  | InsufficientCreditsError _ c _ _ | ValidationError _ c | ApiError _ c _ => c
  | NetworkError _ => JStr "NETWORK_ERROR"
  | TimeoutError _ => JStr "TIMEOUT"
  end.

Definition statusCode (e : FirmeApiError) : Z :=
  match e with
  | AuthenticationError _ _ => 401
  | NotFoundError _ _ => 404
  | RateLimitError _ _ _ _ _ => 429
  | InsufficientCreditsError _ _ _ _ => 403
  | ValidationError _ _ => 400
  | ApiError _ _ s => s
  | NetworkError _ | TimeoutError _ => 0
  end.

End Errors.
Import Errors.

(** What a [throw] carries: a failure of this library, another [Error]
    instance (its [name] and [message]), or a value that is no [Error]. *)
Inductive Thrown : Type :=
| ThrowFirmeApiError (e : FirmeApiError)
| ThrowError (name message : string)
| ThrowValue (v : JsValue).

(** How a call completes. *)
Inductive Completion (A : Type) : Type :=
| Return (a : A)
| Throw (t : Thrown).
Arguments Return {A} a.
Arguments Throw {A} t.

(** The [TypeError] of reading property [k] of [null] or [undefined]
    (V8's wording; no statement below depends on the text). *)
Definition TypeError_read (v : JsValue) (k : string) : Thrown :=
  ThrowError "TypeError"
    ("Cannot read properties of "
     +:+ match v with JUndefined => "undefined" | _ => "null" end
     +:+ " (reading '" +:+ k +:+ "')").

(** The [TypeError] of a [ToString] that fails (V8's wording). *)
Definition TypeError_convert : Thrown :=
  ThrowError "TypeError" "Cannot convert object to primitive value".

(** ** Classification of an error response: [FirmeApi.handleErrorResponse] *)

(** [data.message || data.error || 'Unknown error'] *)
Definition chosen_message (fields : list (string * JsValue)) : JsValue :=
  js_or (own_property fields "message")
    (js_or (own_property fields "error") (JStr "Unknown error")).

(** The message as the [Error] constructor stores it; [None] when it
    throws. *)
Definition error_message (fields : list (string * JsValue)) : option string :=
  ToString (chosen_message fields).

(** [data.code || 'UNKNOWN_ERROR'] *)
Definition error_code (fields : list (string * JsValue)) : JsValue :=
  js_or (own_property fields "code") (JStr "UNKNOWN_ERROR").

(** The [switch] on the status code: the failure that the selected
    [new] expression holds once its constructor has stored [message]. *)
Definition select (statusCode : Z) (message : string) (code : JsValue)
    (fields : list (string * JsValue)) : FirmeApiError :=
  if statusCode =? 401 then AuthenticationError message code
  else if statusCode =? 403 then
    if strict_eq_str code "CREDITS_EXHAUSTED" || strict_eq_str code "MOF_INSUFFICIENT_CREDITS"
    then InsufficientCreditsError message code
           (js_coalesce (own_property fields "available_credits") (JNum (integer 0)))
           (js_coalesce (own_property fields "required_credits") (JNum (integer 1)))
    else AuthenticationError message code
  else if statusCode =? 404 then NotFoundError message code
  else if statusCode =? 429 then
    RateLimitError message code
      (js_coalesce (own_property fields "retry_after") (JNum (integer 1)))
      (js_coalesce (own_property fields "current_usage") (JNum (integer 0)))
      (js_coalesce (own_property fields "limit") (JNum (integer 0)))
  else if statusCode =? 400 then ValidationError message code
  else ApiError message code statusCode.

(** The failure built for a body with the properties [fields], or [None]
    when the constructor throws on the message.  Every branch of the
    [switch] passes the message to a constructor, and nothing evaluated
    before the constructor can throw. *)
Definition classify (statusCode : Z) (fields : list (string * JsValue))
    : option FirmeApiError :=
  message ← error_message fields;
  Some (select statusCode message (error_code fields) fields).

(** What [handleErrorResponse] throws for the properties [fields]: the
    classified failure, or the [TypeError] of the constructor. *)
Definition throw_classified (statusCode : Z) (fields : list (string * JsValue)) : Thrown :=
  match classify statusCode fields with
  | Some e => ThrowFirmeApiError e
  | None => TypeError_convert
  end.

(** The function never returns.  When the body is [null], it throws the
    [TypeError] of its first property read; a body that is a number, a
    string, a boolean or an array answers [undefined] to every property
    read, like an object without fields. *)
Definition handleErrorResponse (statusCode : Z) (data : JsValue) : Thrown :=
  match data with
  | JUndefined | JNull => TypeError_read data "message"
  | JObj fields => throw_classified statusCode fields
  | _ => throw_classified statusCode []
  end.

(** ** Client configuration: [FirmeApiConfig] and the constructor *)

Module Config.
(** [FirmeApiConfig]; [None] is a field the caller left out. *)
Record FirmeApiConfig : Type := {
  apiKey : option string;
  sandbox : option bool;
  baseUrl : option string;
  timeout : option JsNumber
}.
End Config.

Definition DEFAULT_BASE_URL : string := "https://www.firmeapi.ro/api".
Definition DEFAULT_TIMEOUT : JsNumber := integer 30000.

(** The private fields of a [FirmeApi] instance. *)
Record FirmeApi : Type := {
  apiKey : string;
  sandbox : bool;
  baseUrl : string;
  timeout : JsNumber
}.

(** [new FirmeApi(config)] *)
Definition constructor (config : Config.FirmeApiConfig) : Completion FirmeApi :=
  match Config.apiKey config with
  | None | Some "" =>
      Throw (ThrowFirmeApiError
               (ValidationError "API key is required" (JStr "MISSING_API_KEY")))
  | Some key =>
      Return {| apiKey := key;
                sandbox := default false (Config.sandbox config);
                baseUrl := default DEFAULT_BASE_URL (Config.baseUrl config);
                timeout := default DEFAULT_TIMEOUT (Config.timeout config) |}
  end.

(** ** Identifier normalisation: [FirmeApi.cleanCui] *)

Definition is_digit (c : ascii) : bool :=
  (48 <=? nat_of_ascii c)%nat && (nat_of_ascii c <=? 57)%nat.

(** [s.replace(/[^0-9]/g, '')] *)
Fixpoint remove_non_digits (s : string) : string :=
  match s with
  | EmptyString => EmptyString
  | String c rest =>
      if is_digit c then String c (remove_non_digits rest)
      else remove_non_digits rest
  end.

Definition cleanCui (cui : string) : Completion string :=
  let cleaned := remove_non_digits cui in
  if (String.length cleaned <? 2)%nat || (10 <? String.length cleaned)%nat then
    Throw (ThrowFirmeApiError
             (ValidationError "CUI must contain between 2 and 10 digits"
                (JStr "INVALID_CUI_FORMAT")))
  else Return cleaned.

(** ** Query strings: the runtime's [URLSearchParams] *)

Module URLSearchParams.

(** The list of name-value pairs, in order. *)
Definition t : Type := list (string * string).

Definition empty : t := [].

(** [set(name, value)]: the first pair named [name] takes the value and
    the later ones go; without one, the pair is appended.  The conversion
    of both arguments to scalar-value strings leaves a well-formed string
    as it is. *)
Fixpoint set (name value : string) (params : t) : t :=
  match params with
  | [] => [(name, value)]
  | (n, v) :: rest =>
      if String.eqb n name
      then (n, value) :: List.filter (fun p => negb (String.eqb (fst p) name)) rest
      else (n, v) :: set name value rest
  end.

Definition hex_digit (n : nat) : ascii :=
  if (n <? 10)%nat then ascii_of_nat (48 + n) else ascii_of_nat (55 + n).

(** Bytes the application/x-www-form-urlencoded serializer leaves as
    they are: ASCII letters and digits, and [*], [-], [.], [_]. *)
Definition unreserved (c : ascii) : bool :=
  let n := nat_of_ascii c in
  ((48 <=? n) && (n <=? 57) || (65 <=? n) && (n <=? 90) || (97 <=? n) && (n <=? 122)
   || (n =? 42) || (n =? 45) || (n =? 46) || (n =? 95))%nat.

Definition encode_byte (c : ascii) : string :=
  let n := nat_of_ascii c in
  if unreserved c then String c EmptyString
  else if (n =? 32)%nat then "+"
  else String "%" (String (hex_digit (n / 16)) (String (hex_digit (n mod 16)) EmptyString)).

Fixpoint encode (s : string) : string :=
  match s with
  | EmptyString => EmptyString
  | String c rest => encode_byte c +:+ encode rest
  end.

(** [toString()]: [name=value] pairs joined by [&]. *)
Fixpoint toString (params : t) : string :=
  match params with
  | [] => ""
  | [(n, v)] => encode n +:+ "=" +:+ encode v
  | (n, v) :: rest => encode n +:+ "=" +:+ encode v +:+ "&" +:+ toString rest
  end.

End URLSearchParams.

(** ** Search filters *)

Module Filters.
(** [SearchFilters]; [None] is a filter the caller left out. *)
Record SearchFilters : Type := {
  q : option string;
  judet : option string;
  localitate : option string;
  caen : option string;
  stare : option string;
  data : option string;
  data_start : option string;
  data_end : option string;
  tva : option bool;
  telefon : option bool;
  page : option JsNumber
}.

(** [{}] *)
Definition none : SearchFilters :=
  {| q := None; judet := None; localitate := None; caen := None; stare := None;
     data := None; data_start := None; data_end := None;
     tva := None; telefon := None; page := None |}.
End Filters.
Import Filters.

(** [if (filters.k) params.set(k, filters.k)] for a string filter. *)
Definition set_if_truthy (k : string) (v : option string)
    (params : URLSearchParams.t) : URLSearchParams.t :=
  match v with
  | Some s => if negb (String.eqb s "") then URLSearchParams.set k s params else params
  | None => params
  end.

(** [if (filters.k !== undefined) params.set(k, filters.k ? '1' : '0')] *)
Definition set_if_defined (k : string) (v : option bool)
    (params : URLSearchParams.t) : URLSearchParams.t :=
  match v with
  | Some b => URLSearchParams.set k (if b then "1" else "0") params
  | None => params
  end.

(** [if (filters.page) params.set('page', String(filters.page))] *)
Definition set_page (v : option JsNumber) (params : URLSearchParams.t)
    : URLSearchParams.t :=
  match v with
  | Some n => if number_truthy n then URLSearchParams.set "page" (Number_toString n) params
              else params
  | None => params
  end.

(** The [params] of [searchCompanies] when it reaches [toString]. *)
Definition search_params (filters : SearchFilters) : URLSearchParams.t :=
  let params := URLSearchParams.empty in
  let params := set_if_truthy "q" (q filters) params in
  let params := set_if_truthy "judet" (judet filters) params in
  let params := set_if_truthy "localitate" (localitate filters) params in
  let params := set_if_truthy "caen" (caen filters) params in
  let params := set_if_truthy "stare" (stare filters) params in
  let params := set_if_truthy "data" (data filters) params in
  let params := set_if_truthy "data_start" (data_start filters) params in
  let params := set_if_truthy "data_end" (data_end filters) params in
  let params := set_if_defined "tva" (tva filters) params in
  let params := set_if_defined "telefon" (telefon filters) params in
  set_page (page filters) params.

(** The [url] that [searchCompanies] passes to [request]. *)
Definition search_url (filters : SearchFilters) : string :=
  let queryString := URLSearchParams.toString (search_params filters) in
  "/v1/firme" +:+ (if negb (String.eqb queryString "") then "?" +:+ queryString else "").

(** ** The transport *)

(** What [fetch] is called with ([signal] left out). *)
Record RequestInit : Type := {
  url : string;
  method : string;
  headers : gmap string string
}.

(** What the client reads of a [Response]: its status and the outcome of
    [response.json()]. *)
Record Response : Type := {
  status : Z;
  json : Completion JsValue
}.

(** [response.ok] *)
Definition ok (response : Response) : bool :=
  (200 <=? status response) && (status response <=? 299).

(** The runtime's [fetch]: given the request, the response or the
    rejection.  A deadline that fires first shows as a rejection with an
    [Error] named [AbortError]. *)
Definition Fetch : Type := RequestInit -> Completion Response.

(** A computation that may call the transport: the requests it issued, in
    order, and how it completed. *)
Definition Call (A : Type) : Type := (list RequestInit * Completion A)%type.

Definition call_lift {A} (c : Completion A) : Call A := ([], c).

#[export] Instance call_ret : MRet Call := fun A a => ([], Return a).

#[export] Instance call_bind : MBind Call := fun A B k m =>
  match m with
  | (log, Return a) => let '(log', r) := k a in ((log ++ log')%list, r)
  | (log, Throw t) => (log, Throw t)
  end.

Definition issued {A} (m : Call A) : list RequestInit := fst m.
Definition outcome {A} (m : Call A) : Completion A := snd m.

(** ** [FirmeApi.request] *)

Section Request.
Variable this : FirmeApi.
Variable fetch : Fetch.

(** The [options] argument: [Some b] is [{ isFreeApi: b }], [None] is
    [{}]. *)
Definition request_headers (isFreeApi : option bool) : gmap string string :=
  let headers : gmap string string :=
    <["User-Agent" := "firmeapi-node/1.0.0"]>
      (<["Accept" := "application/json"]>
         (<["Content-Type" := "application/json"]> ∅)) in
  let headers := <["X-API-KEY" := apiKey this]> headers in
  if sandbox this && negb (default false isFreeApi)
  then <["X-Sandbox" := "true"]> headers
  else headers.

Definition request_init (endpoint : string) (isFreeApi : option bool) : RequestInit :=
  {| url := baseUrl this +:+ endpoint;
     method := "GET";
     headers := request_headers isFreeApi |}.

(** The body of the [try] block. *)
Definition request_try (init : RequestInit) : Completion JsValue :=
  match fetch init with
  | Throw error => Throw error
  | Return response =>
      match json response with
      | Throw error => Throw error
      | Return data =>
          if negb (ok response)
          then Throw (handleErrorResponse (status response) data)
          else Return data
      end
  end.

(** The [catch] block: what is thrown for the caught [error]. *)
Definition request_catch (error : Thrown) : Thrown :=
  match error with
  | ThrowFirmeApiError _ => error
  | ThrowError name message =>
      if String.eqb name "AbortError"
      then ThrowFirmeApiError
             (TimeoutError
                ("Request timed out after " +:+ Number_toString (timeout this) +:+ "ms"))
      else ThrowFirmeApiError (NetworkError message)
  | ThrowValue _ => ThrowFirmeApiError (NetworkError "An unknown error occurred")
  end.

Definition request (endpoint : string) (isFreeApi : option bool) : Call JsValue :=
  let init := request_init endpoint isFreeApi in
  ([init],
   match request_try init with
   | Return data => Return data
   | Throw error => Throw (request_catch error)
   end).

(** [response.data], read outside [request]'s [try]. *)
Definition response_data (response : JsValue) : Call JsValue :=
  call_lift
    match get_property response "data" with
    | Some v => Return v
    | None => Throw (TypeError_read response "data")
    end.

(** ** The identifier-taking operations *)

Definition getCompany (cui : string) : Call JsValue :=
  cleaned ← call_lift (cleanCui cui);
  response ← request ("/v1/firma/" +:+ cleaned) None;
  response_data response.

Definition getBilant (cui : string) : Call JsValue :=
  cleaned ← call_lift (cleanCui cui);
  response ← request ("/v1/bilant/" +:+ cleaned) None;
  response_data response.

Definition getRestante (cui : string) : Call JsValue :=
  cleaned ← call_lift (cleanCui cui);
  response ← request ("/v1/restante/" +:+ cleaned) None;
  response_data response.

Definition getMof (cui : string) : Call JsValue :=
  cleaned ← call_lift (cleanCui cui);
  response ← request ("/v1/mof/" +:+ cleaned) None;
  response_data response.

Definition getFreeCompany (cui : string) : Call JsValue :=
  cleaned ← call_lift (cleanCui cui);
  response ← request ("/free/firma/" +:+ cleaned) (Some true);
  response_data response.

Definition getFreeApiUsage : Call JsValue :=
  response ← request "/free/usage" (Some true);
  response_data response.

Definition searchCompanies (filters : SearchFilters) : Call JsValue :=
  response ← request (search_url filters) None;
  response_data response.

End Request.


(** ** The catalogue of operations *)

Inductive CuiOperation : Type :=
| OpGetCompany | OpGetBilant | OpGetRestante | OpGetMof | OpGetFreeCompany.

Inductive Operation : Type :=
| WithCui (op : CuiOperation) (cui : string)
| SearchCompanies (filters : SearchFilters)
| GetFreeApiUsage.

Definition run_cui (this : FirmeApi) (fetch : Fetch) (op : CuiOperation) : string -> Call JsValue :=
  match op with
  | OpGetCompany => getCompany this fetch
  | OpGetBilant => getBilant this fetch
  | OpGetRestante => getRestante this fetch
  | OpGetMof => getMof this fetch
  | OpGetFreeCompany => getFreeCompany this fetch
  end.

Definition run (this : FirmeApi) (fetch : Fetch) (op : Operation) : Call JsValue :=
  match op with
  | WithCui op cui => run_cui this fetch op cui
  | SearchCompanies filters => searchCompanies this fetch filters
  | GetFreeApiUsage => getFreeApiUsage this fetch
  end.

(** The path each identifier-taking operation puts before the identifier. *)
Definition cui_path (op : CuiOperation) : string :=
  match op with
  | OpGetCompany => "/v1/firma/"
  | OpGetBilant => "/v1/bilant/"
  | OpGetRestante => "/v1/restante/"
  | OpGetMof => "/v1/mof/"
  | OpGetFreeCompany => "/free/firma/"
  end.

(** The free-tier calls are [getFreeCompany] and [getFreeApiUsage]. *)
Definition free_tier (op : Operation) : bool :=
  match op with
  | WithCui OpGetFreeCompany _ | GetFreeApiUsage => true
  | _ => false
  end.

(** ** Readings of the specification, to compare the code with *)

(** A counter of the error payload read as "the number the server sent,
    or the default when the field is absent or not a number". *)
Definition numeric_or_default (v : JsValue) (d : Z) : JsValue :=
  match v with
  | JNum n => JNum n
  | _ => JNum (integer d)
  end.

(** The counters of a classified failure follow [numeric_or_default]. *)
Definition counters_as_stated (statusCode : Z) (fields : list (string * JsValue)) : Prop :=
  match classify statusCode fields with
  | Some (InsufficientCreditsError _ _ available required) =>
      available = numeric_or_default (own_property fields "available_credits") 0 /\
      required = numeric_or_default (own_property fields "required_credits") 1
  | Some (RateLimitError _ _ retryAfter currentUsage limit) =>
      retryAfter = numeric_or_default (own_property fields "retry_after") 1 /\
      currentUsage = numeric_or_default (own_property fields "current_usage") 0 /\
      limit = numeric_or_default (own_property fields "limit") 0
  | _ => True
  end.

(** The message read as "the message field, else the error field, else
    the literal, where else means the field is absent", and the code
    likewise. *)
Definition message_as_stated (fields : list (string * JsValue)) : JsValue :=
  match lookup_field fields "message" with
  | Some m => m
  | None =>
      match lookup_field fields "error" with
      | Some e => e
      | None => JStr "Unknown error"
      end
  end.

Definition code_as_stated (fields : list (string * JsValue)) : JsValue :=
  match lookup_field fields "code" with
  | Some c => c
  | None => JStr "UNKNOWN_ERROR"
  end.

(** The machine codes that select [InsufficientCreditsError] at 403. *)
Definition credits_code (code : JsValue) : Prop :=
  code = JStr "CREDITS_EXHAUSTED" \/ code = JStr "MOF_INSUFFICIENT_CREDITS".

(** The [options] each identifier-taking operation passes to [request]. *)
Definition cui_options (op : CuiOperation) : option bool :=
  match op with
  | OpGetFreeCompany => Some true
  | _ => None
  end.

Definition INVALID_CUI_FORMAT : FirmeApiError :=
  ValidationError "CUI must contain between 2 and 10 digits" (JStr "INVALID_CUI_FORMAT").

Definition MISSING_API_KEY : FirmeApiError :=
  ValidationError "API key is required" (JStr "MISSING_API_KEY").

Definition digits : list ascii :=
  ["0"; "1"; "2"; "3"; "4"; "5"; "6"; "7"; "8"; "9"]%char.

(** The order in which [searchCompanies] visits the filters. *)
Definition key_order : list string :=
  ["q"; "judet"; "localitate"; "caen"; "stare"; "data"; "data_start"; "data_end";
   "tva"; "telefon"; "page"].

Definition flag (b : bool) : string := if b then "1" else "0".

(** The text of filter [k] when the caller supplied it. *)
Definition filter_value (filters : SearchFilters) (k : string) : option string :=
  if String.eqb k "q" then q filters
  else if String.eqb k "judet" then judet filters
  else if String.eqb k "localitate" then localitate filters
  else if String.eqb k "caen" then caen filters
  else if String.eqb k "stare" then stare filters
  else if String.eqb k "data" then data filters
  else if String.eqb k "data_start" then data_start filters
  else if String.eqb k "data_end" then data_end filters
  else if String.eqb k "tva" then flag <$> tva filters
  else if String.eqb k "telefon" then flag <$> telefon filters
  else if String.eqb k "page" then Number_toString <$> page filters
  else None.

(** What a filter contributes to the query: nothing, or its pair. *)
Definition pair_of (k : string) (v : option string) : list (string * string) :=
  match v with
  | Some s => [(k, s)]
  | None => []
  end.

Definition truthy_string (v : option string) : option string :=
  match v with
  | Some s => if negb (String.eqb s "") then Some s else None
  | None => None
  end.

Definition truthy_page (v : option JsNumber) : option string :=
  match v with
  | Some n => if number_truthy n then Some (Number_toString n) else None
  | None => None
  end.

(** The filters with every empty string and a falsy page (a zero or
    not-a-number) taken out. *)
Definition without_falsy (filters : SearchFilters) : SearchFilters :=
  let text (v : option string) := match v with Some "" => None | _ => v end in
  let number (v : option JsNumber) :=
    match v with
    | Some n => if number_truthy n then v else None
    | None => None
    end in
  {| q := text (q filters);
     judet := text (judet filters);
     localitate := text (localitate filters);
     caen := text (caen filters);
     stare := text (stare filters);
     data := text (data filters);
     data_start := text (data_start filters);
     data_end := text (data_end filters);
     tva := tva filters;
     telefon := telefon filters;
     page := number (page filters) |}.

(** ** Sample exchanges *)

Definition sample_client : FirmeApi :=
  {| apiKey := "fa_live_key"; sandbox := true;
     baseUrl := DEFAULT_BASE_URL; timeout := DEFAULT_TIMEOUT |}.

(** A transport that answers every request with the given status and
    decoded body. *)
Definition answer (statusCode : Z) (body : JsValue) : Fetch :=
  fun _ => Return {| status := statusCode; json := Return body |}.

(** A transport whose response body does not parse. *)
Definition answer_unparsable (statusCode : Z) (error : Thrown) : Fetch :=
  fun _ => Return {| status := statusCode; json := Throw error |}.

(** A transport that rejects. *)
Definition reject (error : Thrown) : Fetch := fun _ => Throw error.


(** A 429 payload whose retry_after is a string. *)
Definition rate_limit_body : list (string * JsValue) :=
  [("success", JBool false); ("code", JStr "RATE_LIMIT_EXCEEDED");
   ("message", JStr "Too many requests"); ("retry_after", JStr "soon")].

(** A payload with empty message and code strings. *)
Definition empty_strings_body : list (string * JsValue) :=
  [("success", JBool false); ("error", JStr "Invalid API key");
   ("code", JStr ""); ("message", JStr "")].

Definition syntax_error : Thrown :=
  ThrowError "SyntaxError" "Unexpected token < in JSON at position 0".

(** [{judet: "B", tva: true, page: 2}] *)
Definition sample_filters : SearchFilters :=
  {| q := None; judet := Some "B"; localitate := None; caen := None; stare := None;
     data := None; data_start := None; data_end := None;
     tva := Some true; telefon := None; page := Some (integer 2) |}.

(** A success envelope, as the company lookup receives it. *)
Definition company_envelope : list (string * JsValue) :=
  [("success", JBool true);
   ("data", JObj [("cui", JNum (integer 12345678)); ("denumire", JStr "ACME")])].

(** ** Counting the separators of a query *)

(** How many times the byte [c] occurs in [s]. *)
Fixpoint occurrences (c : ascii) (s : string) : nat :=
  match s with
  | EmptyString => 0
  | String d rest => ((if Ascii.eqb d c then 1 else 0) + occurrences c rest)%nat
  end.

(** The bytes an encoded name or value is made of. *)
Definition query_safe (c : ascii) : bool :=
  URLSearchParams.unreserved c || Ascii.eqb c "+" || Ascii.eqb c "%".

(** ** The constructors of [src/errors.ts], with their default parameters *)

Module New.

(** A parameter with a default value: the default stands in for an
    argument that is [undefined], and for no other. *)
Definition param (v d : JsValue) : JsValue :=
  match v with
  | JUndefined => d
  | _ => v
  end.

(** [super(message)] in [Error]: an [undefined] message leaves the empty
    message of the prototype; [None] is the [TypeError] of a message that
    has no primitive form. *)
Definition Error_message (message : JsValue) : option string :=
  match message with
  | JUndefined => Some ""
  | _ => ToString message
  end.

Definition AuthenticationError (message code : JsValue) : option FirmeApiError :=
  m ← Error_message message;
  Some (Errors.AuthenticationError m (param code (JStr "AUTH_ERROR"))).

Definition NotFoundError (message code : JsValue) : option FirmeApiError :=
  m ← Error_message message;
  Some (Errors.NotFoundError m (param code (JStr "NOT_FOUND"))).

Definition RateLimitError (message code retryAfter currentUsage limit : JsValue)
    : option FirmeApiError :=
  m ← Error_message message;
  Some (Errors.RateLimitError m (param code (JStr "RATE_LIMIT_EXCEEDED"))
          (param retryAfter (JNum (integer 1))) (param currentUsage (JNum (integer 0)))
          (param limit (JNum (integer 0)))).

Definition InsufficientCreditsError
    (message code availableCredits requiredCredits : JsValue) : option FirmeApiError :=
  m ← Error_message message;
  Some (Errors.InsufficientCreditsError m (param code (JStr "CREDITS_EXHAUSTED"))
          (param availableCredits (JNum (integer 0)))
          (param requiredCredits (JNum (integer 1)))).

Definition ValidationError (message code : JsValue) : option FirmeApiError :=
  m ← Error_message message;
  Some (Errors.ValidationError m (param code (JStr "VALIDATION_ERROR"))).

Definition ApiError (message code : JsValue) (statusCode : option Z)
    : option FirmeApiError :=
  m ← Error_message message;
  Some (Errors.ApiError m (param code (JStr "API_ERROR")) (default 500 statusCode)).

Definition NetworkError (message : JsValue) : option FirmeApiError :=
  m ← Error_message (param message (JStr "Network request failed"));
  Some (Errors.NetworkError m).

Definition TimeoutError (message : JsValue) : option FirmeApiError :=
  m ← Error_message (param message (JStr "Request timed out"));
  Some (Errors.TimeoutError m).

End New.

(** [handleErrorResponse] on a body with the properties [fields], written
    with the [new] expressions of the source; [None] when the constructor
    throws. *)
Definition handleErrorResponse_new (statusCode : Z) (fields : list (string * JsValue))
    : option FirmeApiError :=
  let message := chosen_message fields in
  let code := js_or (own_property fields "code") (JStr "UNKNOWN_ERROR") in
  if statusCode =? 401 then New.AuthenticationError message code
  else if statusCode =? 403 then
    if strict_eq_str code "CREDITS_EXHAUSTED" || strict_eq_str code "MOF_INSUFFICIENT_CREDITS"
    then New.InsufficientCreditsError message code
           (js_coalesce (own_property fields "available_credits") (JNum (integer 0)))
           (js_coalesce (own_property fields "required_credits") (JNum (integer 1)))
    else New.AuthenticationError message code
  else if statusCode =? 404 then New.NotFoundError message code
  else if statusCode =? 429 then
    New.RateLimitError message code
      (js_coalesce (own_property fields "retry_after") (JNum (integer 1)))
      (js_coalesce (own_property fields "current_usage") (JNum (integer 0)))
      (js_coalesce (own_property fields "limit") (JNum (integer 0)))
  else if statusCode =? 400 then New.ValidationError message code
  else New.ApiError message code (Some statusCode).

(** A body whose message is an object with an own [toString]. *)
Definition unprintable_body : list (string * JsValue) :=
  [("message", JObj [("toString", JNum (integer 1))]); ("code", JStr "AUTH")].

(** * Properties *)

(** ** Numbers *)

(** The integer literals of the source print as written, and 0 is the
    falsy one; the exponent form starts at 10^21 and below 10^-6. *)
Lemma Number_toString_samples :
  map Number_toString [integer 0; integer 1; integer 2; integer 30000; integer (-15)]
    = ["0"; "1"; "2"; "30000"; "-15"] /\
  map number_truthy [integer 0; integer 1; NaN; Zero true] = [false; true; false; false] /\
  map Number_toString
    [integer 100000000000000000000; integer 1000000000000000000000;
     Finite false {| first := d1; more := Some ([], d5) |} 1;
     Finite false {| first := d1; more := None |} (-5);
     Finite false {| first := d1; more := None |} (-6);
     Finite true {| first := d1; more := Some ([nz d2], d3) |} 23;
     NaN; Infinity true; Zero true]
    = ["100000000000000000000"; "1e+21"; "1.5"; "0.000001"; "1e-7"; "-1.23e+22";
       "NaN"; "-Infinity"; "0"].
Proof. repeat split. Qed.

(** ** Properties of the classification *)

Lemma strict_eq_str_spec (v : JsValue) (s : string) :
  strict_eq_str v s = true <-> v = JStr s.
Proof.
  destruct v; simpl; try (split; [discriminate | intros [=]]).
  rewrite String.eqb_eq. split; [congruence | intros [=]; auto].
Qed.

Lemma select_message (statusCode : Z) (message : string) (code : JsValue)
    (fields : list (string * JsValue)) :
  Errors.message (select statusCode message code fields) = message.
Proof.
  unfold select.
  repeat match goal with |- context [if ?b then _ else _] => destruct b end;
    reflexivity.
Qed.

Lemma select_code (statusCode : Z) (message : string) (code : JsValue)
    (fields : list (string * JsValue)) :
  Errors.code (select statusCode message code fields) = code.
Proof.
  unfold select.
  repeat match goal with |- context [if ?b then _ else _] => destruct b end;
    reflexivity.
Qed.

Lemma classify_Some (statusCode : Z) (fields : list (string * JsValue)) (message : string) :
  error_message fields = Some message ->
  classify statusCode fields = Some (select statusCode message (error_code fields) fields).
Proof. intros H. unfold classify. rewrite H. reflexivity. Qed.

Lemma classify_inv (statusCode : Z) (fields : list (string * JsValue)) (e : FirmeApiError) :
  classify statusCode fields = Some e ->
  error_message fields = Some (Errors.message e) /\
  e = select statusCode (Errors.message e) (error_code fields) fields.
Proof.
  unfold classify. destruct (error_message fields) as [message |]; [| discriminate].
  intros [= <-]. rewrite select_message. auto.
Qed.

Lemma handleErrorResponse_object (statusCode : Z) (fields : list (string * JsValue))
    (e : FirmeApiError) :
  handleErrorResponse statusCode (JObj fields) = ThrowFirmeApiError e <->
  classify statusCode fields = Some e.
Proof.
  simpl. unfold throw_classified.
  destruct (classify statusCode fields) as [e' |]; [| split; discriminate].
  split; intros [= ->]; reflexivity.
Qed.

Lemma request_outcome (this : FirmeApi) (fetch : Fetch) (endpoint : string)
    (isFreeApi : option bool) :
  outcome (request this fetch endpoint isFreeApi) =
  match request_try fetch (request_init this endpoint isFreeApi) with
  | Return data => Return data
  | Throw error => Throw (request_catch this error)
  end.
Proof. reflexivity. Qed.

Lemma request_issued (this : FirmeApi) (fetch : Fetch) (endpoint : string)
    (isFreeApi : option bool) :
  issued (request this fetch endpoint isFreeApi) = [request_init this endpoint isFreeApi].
Proof. reflexivity. Qed.

Lemma credits_code_test (code : JsValue) :
  strict_eq_str code "CREDITS_EXHAUSTED" || strict_eq_str code "MOF_INSUFFICIENT_CREDITS" = true
  <-> credits_code code.
Proof.
  unfold credits_code. rewrite orb_true_iff, !strict_eq_str_spec. tauto.
Qed.

(** The chosen message of an envelope whose message and error fields are
    strings or missing converts to a string. *)
Lemma error_message_of_envelope (fields : list (string * JsValue)) :
  (forall v, lookup_field fields "message" = Some v -> exists s, v = JStr s) ->
  (forall v, lookup_field fields "error" = Some v -> exists s, v = JStr s) ->
  exists message, error_message fields = Some message.
Proof.
  intros Hm He. unfold error_message, chosen_message, js_or, own_property.
  destruct (lookup_field fields "message") as [m |].
  - destruct (Hm m eq_refl) as (sm & ->). simpl.
    destruct (negb (String.eqb sm "")); [eauto |].
    destruct (lookup_field fields "error") as [er |]; [| simpl; eauto].
    destruct (He er eq_refl) as (se & ->). simpl.
    destruct (negb (String.eqb se "")); simpl; eauto.
  - simpl.
    destruct (lookup_field fields "error") as [er |]; [| simpl; eauto].
    destruct (He er eq_refl) as (se & ->). simpl.
    destruct (negb (String.eqb se "")); simpl; eauto.
Qed.



(** C6 as stated fails: a retry_after that is present but not a number is
    carried as it is, not replaced by 1. *)
Lemma C6_counterexample : ~ counters_as_stated 429 rate_limit_body.
Proof.
  unfold counters_as_stated. simpl. intros (H & _). discriminate H.
Qed.

(** C6, amended. At 429, and at 403 with a credits machine code, each
    counter of the classified failure is the server's snake_case field;
    it is replaced by its default (available_credits 0, required_credits
    1, retry_after 1, current_usage 0, limit 0) exactly when the field is
    absent or null, and any other value, a number or not, is carried
    unchanged.  A failure is classified when the chosen message converts
    to a string. *)
Theorem C6_counters_default_when_nullish (fields : list (string * JsValue))
    (message : string) :
  error_message fields = Some message ->
  let counter k d :=
    match lookup_field fields k with
    | None | Some JUndefined | Some JNull => JNum (integer d)
    | Some v => v
    end in
  handleErrorResponse 429 (JObj fields) =
    ThrowFirmeApiError
      (RateLimitError message (error_code fields)
         (counter "retry_after" 1) (counter "current_usage" 0) (counter "limit" 0)) /\
  (credits_code (error_code fields) ->
   handleErrorResponse 403 (JObj fields) =
     ThrowFirmeApiError
       (InsufficientCreditsError message (error_code fields)
          (counter "available_credits" 0) (counter "required_credits" 1))).
Proof.
  intros Hmessage.
  assert (Hc : forall k d,
             js_coalesce (own_property fields k) (JNum (integer d)) =
             match lookup_field fields k with
             | None | Some JUndefined | Some JNull => JNum (integer d)
             | Some v => v
             end).
  { intros k d. unfold own_property.
    destruct (lookup_field fields k) as [[]|]; reflexivity. }
  cbv zeta. split.
  - apply handleErrorResponse_object. rewrite (classify_Some _ _ _ Hmessage).
    unfold select. simpl. rewrite !Hc. reflexivity.
  - intros Hcode. apply credits_code_test in Hcode.
    apply handleErrorResponse_object. rewrite (classify_Some _ _ _ Hmessage).
    unfold select. simpl. rewrite Hcode, !Hc. reflexivity.
Qed.

Lemma C6_counters_default_when_nullish_witness :
  handleErrorResponse 403
    (JObj [("code", JStr "CREDITS_EXHAUSTED"); ("available_credits", JNull);
           ("required_credits", JStr "five")]) =
  ThrowFirmeApiError
    (InsufficientCreditsError "Unknown error" (JStr "CREDITS_EXHAUSTED")
       (JNum (integer 0)) (JStr "five")).
Proof.
  apply (C6_counters_default_when_nullish
           [("code", JStr "CREDITS_EXHAUSTED"); ("available_credits", JNull);
            ("required_credits", JStr "five")] "Unknown error" eq_refl).
  left. reflexivity.
Defined.

(** C7 as stated fails: an empty message gives way to the error field and
    an empty code to the default, although both fields are present. *)
Lemma C7_counterexample :
  exists e,
    handleErrorResponse 401 (JObj empty_strings_body) = ThrowFirmeApiError e /\
    ~ (JStr (Errors.message e) = message_as_stated empty_strings_body /\
       Errors.code e = code_as_stated empty_strings_body).
Proof.
  eexists. split; [reflexivity |].
  simpl. intros (H & _). discriminate H.
Qed.

(** C7, amended. Every classified failure takes as message the
    envelope's message field when that is truthy (a non-empty string in
    particular), else its error field when that is truthy, else the
    literal "Unknown error"; and as machine code the envelope's code field
    when truthy, else "UNKNOWN_ERROR".  An absent, null or empty field is
    passed over.  The message of the failure is the chosen value
    converted to a string, and a failure is classified exactly when that
    conversion succeeds. *)
Theorem C7_message_and_code_fallbacks (statusCode : Z) (fields : list (string * JsValue)) :
  let m := own_property fields "message" in
  let er := own_property fields "error" in
  let c := own_property fields "code" in
  let chosen := if truthy m then m else if truthy er then er else JStr "Unknown error" in
  let code := if truthy c then c else JStr "UNKNOWN_ERROR" in
  let classified text :=
    exists e,
      handleErrorResponse statusCode (JObj fields) = ThrowFirmeApiError e /\
      Errors.message e = text /\ Errors.code e = code in
  (forall s, m = JStr s -> s <> "" -> classified s) /\
  (forall s, truthy m = false -> er = JStr s -> s <> "" -> classified s) /\
  (truthy m = false -> truthy er = false -> classified "Unknown error") /\
  (forall text, ToString chosen = Some text -> classified text) /\
  (forall e, handleErrorResponse statusCode (JObj fields) = ThrowFirmeApiError e ->
     ToString chosen = Some (Errors.message e) /\ Errors.code e = code) /\
  (forall s, c = JStr s -> s <> "" -> code = JStr s) /\
  (truthy c = false -> code = JStr "UNKNOWN_ERROR") /\
  (forall k, lookup_field fields k = None \/ lookup_field fields k = Some JNull \/
             lookup_field fields k = Some (JStr "") ->
             truthy (own_property fields k) = false).
Proof.
  intros m er c chosen code classified.
  assert (Hne : forall s, s <> "" -> truthy (JStr s) = true).
  { intros s Hs. simpl. destruct (String.eqb_spec s ""); [contradiction | reflexivity]. }
  assert (Hchosen : chosen_message fields = chosen) by reflexivity.
  assert (Hgeneral : forall text, ToString chosen = Some text -> classified text).
  { intros text Htext. exists (select statusCode text (error_code fields) fields).
    split; [| split; [apply select_message | apply select_code]].
    apply handleErrorResponse_object, classify_Some.
    unfold error_message. rewrite Hchosen. exact Htext. }
  split; [| split; [| split; [| split; [exact Hgeneral | split]]]].
  - intros s Hm Hs. apply Hgeneral. unfold chosen. rewrite Hm, (Hne s Hs). reflexivity.
  - intros s Hm Her Hs. apply Hgeneral. unfold chosen.
    rewrite Hm, Her, (Hne s Hs). reflexivity.
  - intros Hm Her. apply Hgeneral. unfold chosen. rewrite Hm, Her. reflexivity.
  - intros e He. apply handleErrorResponse_object, classify_inv in He.
    destruct He as (Hmessage & He). unfold error_message in Hmessage.
    rewrite Hchosen in Hmessage. split; [exact Hmessage |].
    rewrite He. apply select_code.
  - split; [| split].
    + intros s Hc Hs. unfold code. rewrite Hc, (Hne s Hs). reflexivity.
    + intros Hc. unfold code. rewrite Hc. reflexivity.
    + intros k Hk. unfold own_property.
      destruct Hk as [-> | [-> | ->]]; reflexivity.
Qed.

Lemma C7_message_and_code_fallbacks_witness :
  exists e,
    handleErrorResponse 401 (JObj empty_strings_body) = ThrowFirmeApiError e /\
    Errors.message e = "Invalid API key" /\
    Errors.code e = JStr "UNKNOWN_ERROR".
Proof.
  destruct (C7_message_and_code_fallbacks 401 empty_strings_body)
    as (_ & Herr & _).
  apply (Herr "Invalid API key"); [reflexivity | reflexivity | discriminate].
Defined.

(** ** Identifier validation *)

Lemma is_digit_spec (c : ascii) : is_digit c = true <-> In c digits.
Proof.
  destruct c as [[] [] [] [] [] [] [] []]; vm_compute;
    (split; [intros H; try discriminate H; tauto
            | intros H; try reflexivity;
              repeat (destruct H as [H | H]; [discriminate H |]); contradiction]).
Qed.

Lemma remove_non_digits_filter (s : string) :
  list_ascii_of_string (remove_non_digits s) =
  List.filter is_digit (list_ascii_of_string s).
Proof.
  induction s as [| c s IH]; simpl; [reflexivity |].
  destruct (is_digit c); simpl; congruence.
Qed.

Lemma cleanCui_rejects (cui : string) :
  (String.length (remove_non_digits cui) < 2 \/
   10 < String.length (remove_non_digits cui))%nat ->
  cleanCui cui = Throw (ThrowFirmeApiError INVALID_CUI_FORMAT).
Proof.
  intros H. unfold cleanCui.
  destruct (Nat.ltb_spec (String.length (remove_non_digits cui)) 2);
    destruct (Nat.ltb_spec 10 (String.length (remove_non_digits cui)));
    simpl; try reflexivity; lia.
Qed.

Lemma cleanCui_accepts (cui : string) :
  (2 <= String.length (remove_non_digits cui) <= 10)%nat ->
  cleanCui cui = Return (remove_non_digits cui).
Proof.
  intros H. unfold cleanCui.
  destruct (Nat.ltb_spec (String.length (remove_non_digits cui)) 2);
    destruct (Nat.ltb_spec 10 (String.length (remove_non_digits cui)));
    simpl; try reflexivity; lia.
Qed.

Lemma run_cui_throw (this : FirmeApi) (fetch : Fetch) (op : CuiOperation)
    (cui : string) (t : Thrown) :
  cleanCui cui = Throw t -> run_cui this fetch op cui = ([], Throw t).
Proof.
  intros H.
  destruct op; simpl;
    unfold getCompany, getBilant, getRestante, getMof, getFreeCompany;
    rewrite H; reflexivity.
Qed.

Lemma bind_call_lift_return {A B} (a : A) (k : A -> Call B) :
  call_lift (Return a) ≫= k = k a.
Proof. unfold call_lift, mbind, call_bind. destruct (k a). reflexivity. Qed.

Lemma bind_response_data_issued (m : Call JsValue) :
  issued (response ← m; response_data response) = issued m.
Proof.
  destruct m as [log [data | t]]; simpl; [| reflexivity].
  unfold response_data, call_lift.
  destruct (get_property data "data"); simpl; apply app_nil_r.
Qed.

Lemma run_cui_return (this : FirmeApi) (fetch : Fetch) (op : CuiOperation)
    (cui cleaned : string) :
  cleanCui cui = Return cleaned ->
  issued (run_cui this fetch op cui) =
  [request_init this (cui_path op +:+ cleaned) (cui_options op)].
Proof.
  intros H.
  destruct op; simpl;
    unfold getCompany, getBilant, getRestante, getMof, getFreeCompany;
    rewrite H, bind_call_lift_return, bind_response_data_issued; reflexivity.
Qed.

(** C2. Every identifier-taking operation (getCompany, getBilant,
    getRestante, getMof, getFreeCompany) first strips the non-digit
    characters of the identifier.  With fewer than 2 or more than 10
    digits left it throws the Validation failure coded INVALID_CUI_FORMAT
    and issues no request; otherwise it issues one request, whose path
    ends in the digit string. *)
Theorem C2_identifier_checked_before_any_request
    (this : FirmeApi) (fetch : Fetch) (op : CuiOperation) (cui : string) :
  let cleaned := remove_non_digits cui in
  list_ascii_of_string cleaned = List.filter is_digit (list_ascii_of_string cui) /\
  (forall c, is_digit c = true <-> In c digits) /\
  ((String.length cleaned < 2 \/ 10 < String.length cleaned)%nat ->
     run_cui this fetch op cui = ([], Throw (ThrowFirmeApiError INVALID_CUI_FORMAT)) /\
     Errors.name INVALID_CUI_FORMAT = "ValidationError" /\
     Errors.code INVALID_CUI_FORMAT = JStr "INVALID_CUI_FORMAT") /\
  ((2 <= String.length cleaned <= 10)%nat ->
     exists init,
       issued (run_cui this fetch op cui) = [init] /\
       url init = baseUrl this +:+ cui_path op +:+ cleaned).
Proof.
  intros cleaned. split; [apply remove_non_digits_filter |].
  split; [apply is_digit_spec |].
  split.
  - intros H. split; [| split; reflexivity].
    apply run_cui_throw, cleanCui_rejects, H.
  - intros H. eexists. split.
    + apply run_cui_return, cleanCui_accepts, H.
    + reflexivity.
Qed.

Lemma C2_identifier_checked_before_any_request_witness :
  run_cui sample_client (answer 200 (JObj [])) OpGetBilant "RO-7"
    = ([], Throw (ThrowFirmeApiError INVALID_CUI_FORMAT)) /\
  map url (issued (run_cui sample_client (answer 200 (JObj [])) OpGetMof "RO 1234 5678"))
    = ["https://www.firmeapi.ro/api/v1/mof/12345678"].
Proof.
  split.
  - apply (C2_identifier_checked_before_any_request
             sample_client (answer 200 (JObj [])) OpGetBilant "RO-7").
    left. vm_compute. lia.
  - destruct (C2_identifier_checked_before_any_request
                sample_client (answer 200 (JObj [])) OpGetMof "RO 1234 5678")
      as (_ & _ & _ & Hok).
    destruct Hok as (init & -> & Hurl); [vm_compute; lia |].
    simpl map. rewrite Hurl. reflexivity.
Defined.

(** ** Construction *)

(** C3. Constructing a client without a credential, or with the empty
    string, throws the Validation failure coded MISSING_API_KEY whatever
    the other fields are, and gives no client; with a non-empty credential
    it gives a client holding that credential, in which a field left
    unspecified takes its default (sandbox off, the fixed base URL, 30000
    ms) and a specified one its value. *)
Theorem C3_credential_required (config : Config.FirmeApiConfig) :
  (Config.apiKey config = None \/ Config.apiKey config = Some "" ->
     constructor config = Throw (ThrowFirmeApiError MISSING_API_KEY) /\
     Errors.name MISSING_API_KEY = "ValidationError" /\
     Errors.code MISSING_API_KEY = JStr "MISSING_API_KEY") /\
  (forall key, Config.apiKey config = Some key -> key <> "" ->
     exists client,
       constructor config = Return client /\
       apiKey client = key /\
       sandbox client = match Config.sandbox config with Some b => b | None => false end /\
       baseUrl client =
         match Config.baseUrl config with
         | Some u => u
         | None => "https://www.firmeapi.ro/api"
         end /\
       timeout client =
         match Config.timeout config with Some t => t | None => integer 30000 end).
Proof.
  split.
  - intros H. split; [| split; reflexivity].
    unfold constructor. destruct H as [-> | ->]; reflexivity.
  - intros key Hkey Hne. unfold constructor. rewrite Hkey.
    destruct key as [| c key]; [contradiction |].
    eexists. split; [reflexivity |].
    simpl. repeat split.
Qed.

Lemma C3_credential_required_witness :
  constructor {| Config.apiKey := Some ""; Config.sandbox := Some true;
                 Config.baseUrl := None; Config.timeout := Some (integer 5) |}
    = Throw (ThrowFirmeApiError MISSING_API_KEY) /\
  constructor {| Config.apiKey := Some "fa_live_key"; Config.sandbox := None;
                 Config.baseUrl := None; Config.timeout := None |}
    = Return {| apiKey := "fa_live_key"; sandbox := false;
                baseUrl := "https://www.firmeapi.ro/api"; timeout := integer 30000 |}.
Proof.
  split.
  - apply (C3_credential_required
             {| Config.apiKey := Some ""; Config.sandbox := Some true;
                Config.baseUrl := None; Config.timeout := Some (integer 5) |}).
    right. reflexivity.
  - destruct (C3_credential_required
                {| Config.apiKey := Some "fa_live_key"; Config.sandbox := None;
                   Config.baseUrl := None; Config.timeout := None |})
      as (_ & Hok).
    destruct (Hok "fa_live_key" eq_refl) as (client & -> & Hk & Hs & Hb & Ht);
      [discriminate |].
    destruct client. simpl in *. subst. reflexivity.
Defined.

(** ** Request headers *)

Lemma request_headers_fixed (this : FirmeApi) (isFreeApi : option bool) :
  let h := request_headers this isFreeApi in
  h !! "Content-Type" = Some "application/json" /\
  h !! "Accept" = Some "application/json" /\
  h !! "User-Agent" = Some "firmeapi-node/1.0.0" /\
  h !! "X-API-KEY" = Some (apiKey this).
Proof.
  unfold request_headers.
  destruct (sandbox this && negb (default false isFreeApi));
    repeat split; simplify_map_eq; reflexivity.
Qed.

Lemma request_headers_sandbox (this : FirmeApi) (isFreeApi : option bool) :
  request_headers this isFreeApi !! "X-Sandbox" =
  if sandbox this && negb (default false isFreeApi) then Some "true" else None.
Proof.
  unfold request_headers.
  destruct (sandbox this && negb (default false isFreeApi));
    simplify_map_eq; reflexivity.
Qed.

(** Every operation issues at most one request, built by [request_init]
    with the tier flag of the operation. *)
Lemma run_issued (this : FirmeApi) (fetch : Fetch) (op : Operation) (init : RequestInit) :
  In init (issued (run this fetch op)) ->
  exists endpoint,
    init = request_init this endpoint (if free_tier op then Some true else None).
Proof.
  destruct op as [op cui | filters |]; simpl run.
  - destruct (cleanCui cui) as [cleaned | t] eqn:E.
    + rewrite (run_cui_return this fetch op cui cleaned E).
      intros [<- | []]. exists (cui_path op +:+ cleaned).
      destruct op; reflexivity.
    + rewrite (run_cui_throw this fetch op cui t E). intros [].
  - unfold searchCompanies. rewrite bind_response_data_issued, request_issued.
    intros [<- | []]. eexists. reflexivity.
  - unfold getFreeApiUsage. rewrite bind_response_data_issued, request_issued.
    intros [<- | []]. eexists. reflexivity.
Qed.

(** C4. A request carries the sandbox header exactly when the client's
    sandbox flag is on and the call is standard-tier; the free-tier calls
    (getFreeCompany, getFreeApiUsage) never carry it; and the content-type,
    accept, client-identification and authentication headers are on every
    request of either tier. *)
Theorem C4_sandbox_header_standard_tier_only
    (this : FirmeApi) (fetch : Fetch) (op : Operation) (init : RequestInit) :
  In init (issued (run this fetch op)) ->
  (is_Some (headers init !! "X-Sandbox") <->
     sandbox this = true /\ free_tier op = false) /\
  (free_tier op = true -> headers init !! "X-Sandbox" = None) /\
  (sandbox this = true -> free_tier op = false ->
     headers init !! "X-Sandbox" = Some "true") /\
  headers init !! "Content-Type" = Some "application/json" /\
  headers init !! "Accept" = Some "application/json" /\
  headers init !! "User-Agent" = Some "firmeapi-node/1.0.0" /\
  headers init !! "X-API-KEY" = Some (apiKey this).
Proof.
  intros Hin. destruct (run_issued this fetch op init Hin) as (endpoint & ->).
  simpl headers. rewrite request_headers_sandbox.
  split; [| split; [| split; [| apply request_headers_fixed]]].
  - split.
    + intros [x Hx].
      destruct (sandbox this), (free_tier op); simpl in Hx;
        try discriminate Hx; split; reflexivity.
    + intros [-> ->]. simpl. eexists. reflexivity.
  - intros ->. destruct (sandbox this); reflexivity.
  - intros -> ->. reflexivity.
Qed.

Lemma C4_sandbox_header_standard_tier_only_witness :
  headers (request_init sample_client "/free/firma/12345678" (Some true)) !! "X-Sandbox"
    = None /\
  headers (request_init sample_client "/v1/firma/12345678" None) !! "X-Sandbox"
    = Some "true".
Proof.
  split.
  - apply (C4_sandbox_header_standard_tier_only sample_client (answer 200 (JObj []))
             (WithCui OpGetFreeCompany "12345678")).
    + left. reflexivity.
    + reflexivity.
  - apply (C4_sandbox_header_standard_tier_only sample_client (answer 200 (JObj []))
             (WithCui OpGetCompany "12345678")).
    + left. reflexivity.
    + reflexivity.
    + reflexivity.
Defined.

(** ** Failures caught by [request] *)

Lemma request_try_unparsable (fetch : Fetch) (init : RequestInit)
    (response : Response) (error : Thrown) :
  fetch init = Return response ->
  json response = Throw error ->
  request_try fetch init = Throw error.
Proof. intros Hf Hj. unfold request_try. rewrite Hf, Hj. reflexivity. Qed.

Lemma request_catch_typed (this : FirmeApi) (error : Thrown) :
  exists e, request_catch this error = ThrowFirmeApiError e.
Proof.
  destruct error as [e | name message | v]; simpl; eauto.
  destruct (String.eqb name "AbortError"); eauto.
Qed.

Lemma request_catch_error (this : FirmeApi) (name message : string) :
  name <> "AbortError" ->
  request_catch this (ThrowError name message) = ThrowFirmeApiError (NetworkError message).
Proof.
  intros Hne. simpl. destruct (String.eqb_spec name "AbortError"); [contradiction | reflexivity].
Qed.

(** C8 as stated fails: the [SyntaxError] of a body that does not parse
    is not what the call throws. *)
Lemma C8_counterexample :
  outcome (request sample_client (answer_unparsable 200 syntax_error)
             "/v1/firma/12345678" None)
  <> Throw syntax_error.
Proof. vm_compute. discriminate. Qed.

(** C8, amended. When the body of a response fails to parse, whatever
    the HTTP status, the error of the parse step is caught like any other:
    the call throws a typed failure, which is a Network failure carrying
    the parse error's message when that error is an [Error] not named
    AbortError; the status code is not classified. *)
Theorem C8_parse_error_becomes_network_failure
    (this : FirmeApi) (fetch : Fetch) (endpoint : string) (isFreeApi : option bool)
    (response : Response) (error : Thrown) :
  fetch (request_init this endpoint isFreeApi) = Return response ->
  json response = Throw error ->
  let result := outcome (request this fetch endpoint isFreeApi) in
  result = Throw (request_catch this error) /\
  (exists e, result = Throw (ThrowFirmeApiError e)) /\
  (forall name message,
     error = ThrowError name message -> name <> "AbortError" ->
     result = Throw (ThrowFirmeApiError (NetworkError message))).
Proof.
  intros Hf Hj result.
  assert (Hr : result = Throw (request_catch this error)).
  { unfold result. rewrite request_outcome.
    rewrite (request_try_unparsable _ _ _ _ Hf Hj). reflexivity. }
  split; [exact Hr |]. rewrite Hr. split.
  - destruct (request_catch_typed this error) as (e & ->). eauto.
  - intros name message -> Hne. rewrite request_catch_error by exact Hne. reflexivity.
Qed.

Lemma C8_parse_error_becomes_network_failure_witness :
  outcome (request sample_client (answer_unparsable 502 syntax_error)
             "/v1/firma/12345678" None)
  = Throw (ThrowFirmeApiError (NetworkError "Unexpected token < in JSON at position 0")).
Proof.
  destruct (C8_parse_error_becomes_network_failure
              sample_client (answer_unparsable 502 syntax_error) "/v1/firma/12345678" None
              {| status := 502; json := Throw syntax_error |} syntax_error
              eq_refl eq_refl) as (_ & _ & Herror).
  apply (Herror "SyntaxError" "Unexpected token < in JSON at position 0" eq_refl).
  discriminate.
Defined.

(** C9. Whatever the [try] block of [request] throws is handled so: a
    failure that is already typed is thrown again unchanged; an [Error]
    named AbortError, which is how the deadline's abort arrives, becomes a
    Timeout failure; any other [Error] becomes a Network failure carrying
    its message; a thrown value that is no [Error] becomes a Network
    failure too.  A Validation failure of the identifier check leaves the
    operation as it is. *)
Theorem C9_caught_errors
    (this : FirmeApi) (fetch : Fetch) (endpoint : string) (isFreeApi : option bool)
    (error : Thrown) :
  request_try fetch (request_init this endpoint isFreeApi) = Throw error ->
  let result := outcome (request this fetch endpoint isFreeApi) in
  (forall e, error = ThrowFirmeApiError e -> result = Throw (ThrowFirmeApiError e)) /\
  (forall message, error = ThrowError "AbortError" message ->
     result = Throw (ThrowFirmeApiError
                       (TimeoutError ("Request timed out after "
                                      +:+ Number_toString (timeout this) +:+ "ms")))) /\
  (forall name message, error = ThrowError name message -> name <> "AbortError" ->
     result = Throw (ThrowFirmeApiError (NetworkError message))) /\
  (forall v, error = ThrowValue v ->
     exists message, result = Throw (ThrowFirmeApiError (NetworkError message))) /\
  (forall op cui e, cleanCui cui = Throw (ThrowFirmeApiError e) ->
     outcome (run_cui this fetch op cui) = Throw (ThrowFirmeApiError e)).
Proof.
  intros Htry result.
  assert (Hr : result = Throw (request_catch this error)).
  { unfold result. rewrite request_outcome, Htry. reflexivity. }
  rewrite Hr. repeat split.
  - intros e ->. reflexivity.
  - intros message ->. reflexivity.
  - intros name message -> Hne. rewrite request_catch_error by exact Hne. reflexivity.
  - intros v ->. eexists. reflexivity.
  - intros op cui e Hc. rewrite (run_cui_throw this fetch op cui _ Hc). reflexivity.
Qed.

Lemma C9_caught_errors_witness :
  outcome (request sample_client (reject (ThrowError "AbortError" "This operation was aborted"))
             "/v1/firma/12345678" None)
  = Throw (ThrowFirmeApiError (TimeoutError "Request timed out after 30000ms")) /\
  outcome (request sample_client (reject (ThrowError "TypeError" "fetch failed"))
             "/v1/firma/12345678" None)
  = Throw (ThrowFirmeApiError (NetworkError "fetch failed")).
Proof.
  split.
  - destruct (C9_caught_errors sample_client
                (reject (ThrowError "AbortError" "This operation was aborted"))
                "/v1/firma/12345678" None
                (ThrowError "AbortError" "This operation was aborted") eq_refl)
      as (_ & Habort & _).
    apply (Habort "This operation was aborted" eq_refl).
  - destruct (C9_caught_errors sample_client
                (reject (ThrowError "TypeError" "fetch failed"))
                "/v1/firma/12345678" None
                (ThrowError "TypeError" "fetch failed") eq_refl)
      as (_ & _ & Herror & _).
    apply (Herror "TypeError" "fetch failed" eq_refl).
    discriminate.
Defined.

(** ** The query of a search *)

Lemma set_fresh (k v : string) (params : URLSearchParams.t) :
  ~ In k (map fst params) ->
  URLSearchParams.set k v params = (params ++ [(k, v)])%list.
Proof.
  induction params as [| [n w] rest IH]; simpl; intros Hk; [reflexivity |].
  destruct (String.eqb_spec n k) as [-> | Hne]; [tauto |].
  rewrite IH by tauto. reflexivity.
Qed.

Lemma set_if_truthy_fresh (k : string) (v : option string) (params : URLSearchParams.t) :
  ~ In k (map fst params) ->
  set_if_truthy k v params = (params ++ pair_of k (truthy_string v))%list.
Proof.
  intros Hk. unfold set_if_truthy, truthy_string.
  destruct v as [s |]; simpl; [| symmetry; apply app_nil_r].
  destruct (negb (String.eqb s "")); simpl;
    [apply set_fresh, Hk | symmetry; apply app_nil_r].
Qed.

Lemma set_if_defined_fresh (k : string) (v : option bool) (params : URLSearchParams.t) :
  ~ In k (map fst params) ->
  set_if_defined k v params = (params ++ pair_of k (flag <$> v))%list.
Proof.
  intros Hk. unfold set_if_defined.
  destruct v as [b |]; simpl; [apply set_fresh, Hk | symmetry; apply app_nil_r].
Qed.

Lemma set_page_fresh (v : option JsNumber) (params : URLSearchParams.t) :
  ~ In "page" (map fst params) ->
  set_page v params = (params ++ pair_of "page" (truthy_page v))%list.
Proof.
  intros Hk. unfold set_page, truthy_page.
  destruct v as [n |]; simpl; [| symmetry; apply app_nil_r].
  destruct (number_truthy n); simpl;
    [apply set_fresh, Hk | symmetry; apply app_nil_r].
Qed.

Lemma pair_of_key (k k' : string) (v : option string) :
  In k' (map fst (pair_of k v)) -> k' = k.
Proof. destruct v; simpl; [intros [<- | []]; reflexivity | intros []]. Qed.

Lemma pair_of_In (k k' s : string) (v : option string) :
  In (k', s) (pair_of k v) -> k' = k /\ v = Some s.
Proof.
  destruct v; simpl; [| intros []].
  intros [[= <- <-] | []]. split; reflexivity.
Qed.

Lemma pair_of_sublist (k : string) (v : option string) :
  map fst (pair_of k v) `sublist_of` [k].
Proof. destruct v; simpl; [reflexivity | apply sublist_nil_l]. Qed.

(** A key is fresh for a concatenation of contributions of other keys. *)
Ltac fresh_key :=
  let H := fresh "H" in
  intros H; rewrite ?map_app, ?in_app_iff in H;
  repeat (destruct H as [H | H]);
  try (apply pair_of_key in H; discriminate H);
  try contradiction H.

(** The query is the concatenation of what each filter contributes, in
    the order of the [if] statements. *)
Lemma search_params_pairs (filters : SearchFilters) :
  search_params filters =
  (pair_of "q" (truthy_string (q filters)) ++
   pair_of "judet" (truthy_string (judet filters)) ++
   pair_of "localitate" (truthy_string (localitate filters)) ++
   pair_of "caen" (truthy_string (caen filters)) ++
   pair_of "stare" (truthy_string (stare filters)) ++
   pair_of "data" (truthy_string (data filters)) ++
   pair_of "data_start" (truthy_string (data_start filters)) ++
   pair_of "data_end" (truthy_string (data_end filters)) ++
   pair_of "tva" (flag <$> tva filters) ++
   pair_of "telefon" (flag <$> telefon filters) ++
   pair_of "page" (truthy_page (page filters)))%list.
Proof.
  unfold search_params, URLSearchParams.empty.
  rewrite (set_if_truthy_fresh "q") by fresh_key.
  rewrite (set_if_truthy_fresh "judet") by fresh_key.
  rewrite (set_if_truthy_fresh "localitate") by fresh_key.
  rewrite (set_if_truthy_fresh "caen") by fresh_key.
  rewrite (set_if_truthy_fresh "stare") by fresh_key.
  rewrite (set_if_truthy_fresh "data") by fresh_key.
  rewrite (set_if_truthy_fresh "data_start") by fresh_key.
  rewrite (set_if_truthy_fresh "data_end") by fresh_key.
  rewrite (set_if_defined_fresh "tva") by fresh_key.
  rewrite (set_if_defined_fresh "telefon") by fresh_key.
  rewrite set_page_fresh by fresh_key.
  simpl app at 1. rewrite <- !app_assoc. reflexivity.
Qed.

Lemma truthy_string_Some (v : option string) (s : string) :
  truthy_string v = Some s -> v = Some s /\ s <> "".
Proof.
  destruct v as [t |]; simpl; [| discriminate].
  destruct (String.eqb_spec t ""); simpl; [discriminate |].
  intros [= <-]. split; [reflexivity | assumption].
Qed.

Lemma truthy_page_iff (v : option JsNumber) (s : string) :
  truthy_page v = Some s <->
  Number_toString <$> v = Some s /\ exists n, v = Some n /\ number_truthy n = true.
Proof.
  destruct v as [n |]; simpl.
  - destruct (number_truthy n) eqn:E; split.
    + intros H. split; [exact H | eauto].
    + tauto.
    + discriminate.
    + intros (_ & m & [= <-] & Hm). congruence.
  - split; [discriminate | intros [[=] _]].
Qed.

(** A pair is in the query exactly when it is the text of a supplied
    filter that passed its test: no test for tva and telefon, a truthy
    page, a non-empty string for the others. *)
Lemma search_params_In (filters : SearchFilters) (k v : string) :
  In (k, v) (search_params filters) <->
  filter_value filters k = Some v /\
  (k = "tva" \/ k = "telefon" \/
   (k = "page" /\ exists n, page filters = Some n /\ number_truthy n = true) \/
   (k <> "tva" /\ k <> "telefon" /\ k <> "page" /\ v <> "")).
Proof.
  rewrite search_params_pairs, !in_app_iff. split.
  - intros H.
    repeat (destruct H as [H | H]);
      apply pair_of_In in H; destruct H as [-> H]; unfold filter_value; simpl;
      try (apply truthy_string_Some in H; destruct H as [H Hne]; split;
           [exact H | right; right; right; repeat split; (discriminate || exact Hne)]).
    + split; [exact H | tauto].
    + split; [exact H | tauto].
    + apply truthy_page_iff in H. destruct H as [H Hn]. split; [exact H |].
      right; right; left. split; [reflexivity | exact Hn].
  - intros [Hv Hc]. unfold filter_value in Hv.
    repeat match type of Hv with
           | (if String.eqb k ?s then _ else _) = _ =>
               destruct (String.eqb_spec k s) as [-> | ?]
           end;
      try discriminate Hv;
      try (rewrite Hv; simpl; tauto);
      try (destruct Hc as [Hc | [Hc | [[Hc _] | (_ & _ & _ & Hc)]]];
           try discriminate Hc; unfold truthy_string; rewrite Hv;
           destruct (String.eqb_spec v ""); [contradiction | simpl; tauto]).
    destruct Hc as [Hc | [Hc | [[_ Hc] | (_ & _ & Hc & _)]]];
      try discriminate Hc; try contradiction.
    assert (Hp : truthy_page (page filters) = Some v)
      by (apply truthy_page_iff; split; assumption).
    rewrite Hp. simpl. tauto.
Qed.

Lemma search_url_query (filters : SearchFilters) :
  search_url filters =
  if String.eqb (URLSearchParams.toString (search_params filters)) ""
  then "/v1/firme"
  else "/v1/firme?" +:+ URLSearchParams.toString (search_params filters).
Proof.
  unfold search_url.
  destruct (String.eqb (URLSearchParams.toString (search_params filters)) "");
    reflexivity.
Qed.

Lemma append_not_empty (a b : string) (c : ascii) : a +:+ String c b <> "".
Proof. destruct a; discriminate. Qed.

Lemma append_empty_r (a : string) : a +:+ "" = a.
Proof.
  induction a as [| c a IH]; [reflexivity |].
  change (String c (a +:+ "") = String c a). f_equal. exact IH.
Qed.

Lemma append_assoc (a b c : string) : (a +:+ b) +:+ c = a +:+ (b +:+ c).
Proof.
  induction a as [| d a IH]; [reflexivity |].
  change (String d ((a +:+ b) +:+ c) = String d (a +:+ (b +:+ c))). f_equal. exact IH.
Qed.

Lemma toString_cons (n v : string) (rest : URLSearchParams.t) :
  URLSearchParams.toString ((n, v) :: rest) =
  URLSearchParams.encode n +:+ "=" +:+ URLSearchParams.encode v +:+
  match rest with
  | [] => ""
  | _ => "&" +:+ URLSearchParams.toString rest
  end.
Proof.
  destruct rest as [| [m w] rest]; simpl.
  - rewrite append_empty_r. reflexivity.
  - reflexivity.
Qed.

Lemma toString_empty (params : URLSearchParams.t) :
  URLSearchParams.toString params = "" <-> params = [].
Proof.
  split; [| intros ->; reflexivity].
  destruct params as [| [n v] rest]; [reflexivity |].
  rewrite toString_cons. intros H. exfalso.
  change (URLSearchParams.encode n +:+
          String "=" (URLSearchParams.encode v +:+
                      match rest with
                      | [] => ""
                      | _ :: _ => "&" +:+ URLSearchParams.toString rest
                      end) = "") in H.
  exact (append_not_empty _ _ _ H).
Qed.

(** The text of a pair inside a query: after the pairs before it and an
    [&], before an [&] and the pairs after it. *)
Lemma toString_middle (ps qs : URLSearchParams.t) (n v : string) :
  URLSearchParams.toString (ps ++ (n, v) :: qs)%list =
  match ps with
  | [] => ""
  | _ => URLSearchParams.toString ps +:+ "&"
  end +:+ (URLSearchParams.encode n +:+ "=" +:+ URLSearchParams.encode v) +:+
  match qs with
  | [] => ""
  | _ => "&" +:+ URLSearchParams.toString qs
  end.
Proof.
  induction ps as [| [m w] ps IH].
  - cbn [app]. rewrite toString_cons, !append_assoc. reflexivity.
  - cbn [app]. rewrite toString_cons, IH.
    destruct ps as [| p ps]; cbn [app].
    + rewrite toString_cons, !append_assoc. reflexivity.
    + rewrite (toString_cons m w (p :: ps)), !append_assoc. reflexivity.
Qed.

Lemma search_url_middle (filters : SearchFilters) (ps qs : URLSearchParams.t)
    (n v : string) :
  search_params filters = (ps ++ (n, v) :: qs)%list ->
  search_url filters =
  "/v1/firme?" +:+
  match ps with
  | [] => ""
  | _ => URLSearchParams.toString ps +:+ "&"
  end +:+ (URLSearchParams.encode n +:+ "=" +:+ URLSearchParams.encode v) +:+
  match qs with
  | [] => ""
  | _ => "&" +:+ URLSearchParams.toString qs
  end.
Proof.
  intros H. rewrite search_url_query.
  destruct (String.eqb_spec (URLSearchParams.toString (search_params filters)) "")
    as [E | E].
  - apply toString_empty in E. rewrite E in H. destruct ps; discriminate H.
  - rewrite H, toString_middle, !append_assoc. reflexivity.
Qed.

Lemma searchCompanies_issued (this : FirmeApi) (fetch : Fetch) (filters : SearchFilters) :
  issued (searchCompanies this fetch filters) =
  [request_init this (search_url filters) None].
Proof.
  unfold searchCompanies. rewrite bind_response_data_issued. apply request_issued.
Qed.

(** C5. The query of a search holds the filters the caller supplied and
    only those, each with its own text (a boolean as "1" or "0"), in the
    order q, judet, localitate, caen, stare, data, data_start, data_end,
    tva, telefon, page; a supplied filter is in the query when it passes
    the test of its [if] statement.  The path requested is /v1/firme
    followed, when the query is not empty, by ? and the query.  No filter
    gives /v1/firme, and judet "B", tva true, page 2 give the query
    judet=B&tva=1&page=2. *)
Theorem C5_search_query_in_key_order
    (this : FirmeApi) (fetch : Fetch) (filters : SearchFilters) :
  let params := search_params filters in
  let passes k v :=
    k = "tva" \/ k = "telefon" \/
    (k = "page" /\ exists n, page filters = Some n /\ number_truthy n = true) \/
    (k <> "tva" /\ k <> "telefon" /\ k <> "page" /\ v <> "") in
  map fst params `sublist_of` key_order /\
  (forall k v, In (k, v) params -> filter_value filters k = Some v) /\
  (forall k v, filter_value filters k = Some v -> passes k v -> In (k, v) params) /\
  (forall k v, In (k, v) params -> passes k v) /\
  (forall v, In ("tva", v) params \/ In ("telefon", v) params -> v = "1" \/ v = "0") /\
  search_url filters =
    (if String.eqb (URLSearchParams.toString params) "" then "/v1/firme"
     else "/v1/firme?" +:+ URLSearchParams.toString params) /\
  issued (searchCompanies this fetch filters) =
    [request_init this (search_url filters) None] /\
  search_url Filters.none = "/v1/firme" /\
  search_params sample_filters = [("judet", "B"); ("tva", "1"); ("page", "2")] /\
  search_url sample_filters = "/v1/firme?judet=B&tva=1&page=2".
Proof.
  intros params passes.
  assert (Hvalue : forall k v, In (k, v) params -> filter_value filters k = Some v).
  { intros k v H. apply search_params_In in H. tauto. }
  split; [| split; [exact Hvalue | split; [| split; [| split; [| split;
    [apply search_url_query | split; [apply searchCompanies_issued |]]]]]]].
  - unfold params. rewrite search_params_pairs, !map_app.
    change key_order with
      (["q"] ++ ["judet"] ++ ["localitate"] ++ ["caen"] ++ ["stare"] ++ ["data"] ++
       ["data_start"] ++ ["data_end"] ++ ["tva"] ++ ["telefon"] ++ ["page"])%list.
    repeat apply sublist_app; apply pair_of_sublist.
  - intros k v Hv Hp. apply search_params_In. split; assumption.
  - intros k v H. apply search_params_In in H. apply H.
  - intros v [H | H]; apply Hvalue in H; unfold filter_value in H; simpl in H.
    + destruct (tva filters) as [[] |]; simplify_eq/=; auto.
    + destruct (telefon filters) as [[] |]; simplify_eq/=; auto.
  - repeat split.
Qed.

Lemma C5_search_query_in_key_order_witness :
  In ("judet", "B") (search_params sample_filters) /\
  issued (searchCompanies sample_client (answer 200 (JObj [])) sample_filters)
    = [request_init sample_client "/v1/firme?judet=B&tva=1&page=2" None].
Proof.
  destruct (C5_search_query_in_key_order sample_client (answer 200 (JObj [])) sample_filters)
    as (_ & _ & Hpresent & _ & _ & _ & Hissued & _ & _ & Hurl).
  split.
  - apply Hpresent; [reflexivity |].
    right; right; right. repeat split; discriminate.
  - rewrite Hissued, Hurl. reflexivity.
Defined.

Lemma set_if_truthy_empty (k : string) (v : option string) (params : URLSearchParams.t) :
  set_if_truthy k (match v with Some "" => None | _ => v end) params
  = set_if_truthy k v params.
Proof. destruct v as [[| c s] |]; reflexivity. Qed.

Lemma set_page_falsy (v : option JsNumber) (params : URLSearchParams.t) :
  set_page match v with
           | Some n => if number_truthy n then v else None
           | None => None
           end params
  = set_page v params.
Proof.
  destruct v as [n |]; [| reflexivity].
  destruct (number_truthy n) eqn:E; simpl; rewrite ?E; reflexivity.
Qed.

Lemma search_params_without_falsy (filters : SearchFilters) :
  search_params (without_falsy filters) = search_params filters.
Proof.
  unfold search_params, without_falsy. simpl.
  rewrite !set_if_truthy_empty, set_page_falsy. reflexivity.
Qed.

(** C10. A string filter that is present but empty, and a page equal to
    0, leave the query and the path requested as they would be without
    them, while tva and telefon set to false are emitted, as tva=0 and
    telefon=0 in the path: they are the only filters emitted whenever
    present, where a page must be truthy (0 and not-a-number are not) and
    every other filter a non-empty string. *)
Theorem C10_empty_and_zero_filters_omitted
    (this : FirmeApi) (fetch : Fetch) (filters : SearchFilters) :
  let params := search_params filters in
  let around (before after : URLSearchParams.t) (pair : string) :=
    "/v1/firme?" +:+
    match before with
    | [] => ""
    | _ => URLSearchParams.toString before +:+ "&"
    end +:+ pair +:+
    match after with
    | [] => ""
    | _ => "&" +:+ URLSearchParams.toString after
    end in
  search_params (without_falsy filters) = params /\
  search_url (without_falsy filters) = search_url filters /\
  (forall other, without_falsy other = without_falsy filters ->
     search_url other = search_url filters) /\
  (tva filters = Some false ->
     In ("tva", "0") params /\
     exists before after,
       params = (before ++ ("tva", "0") :: after)%list /\
       search_url filters = around before after "tva=0") /\
  (telefon filters = Some false ->
     In ("telefon", "0") params /\
     exists before after,
       params = (before ++ ("telefon", "0") :: after)%list /\
       search_url filters = around before after "telefon=0") /\
  search_url filters =
    (if String.eqb (URLSearchParams.toString params) "" then "/v1/firme"
     else "/v1/firme?" +:+ URLSearchParams.toString params) /\
  issued (searchCompanies this fetch filters) =
    [request_init this (search_url filters) None] /\
  (forall k v,
     In (k, v) params <->
     filter_value filters k = Some v /\
     (k = "tva" \/ k = "telefon" \/
      (k = "page" /\ exists n, page filters = Some n /\ number_truthy n = true) \/
      (k <> "tva" /\ k <> "telefon" /\ k <> "page" /\ v <> ""))).
Proof.
  intros params around.
  assert (Hurl : forall f, search_url (without_falsy f) = search_url f).
  { intros f. unfold search_url. rewrite search_params_without_falsy. reflexivity. }
  split; [apply search_params_without_falsy |].
  split; [apply Hurl |].
  split; [intros other H; rewrite <- (Hurl other), H; apply Hurl |].
  split; [| split; [| split; [apply search_url_query | split;
    [apply searchCompanies_issued | intros k v; apply search_params_In]]]].
  - intros H. split.
    + apply search_params_In. unfold filter_value. simpl.
      rewrite H. split; [reflexivity | tauto].
    + exists (pair_of "q" (truthy_string (q filters)) ++
              pair_of "judet" (truthy_string (judet filters)) ++
              pair_of "localitate" (truthy_string (localitate filters)) ++
              pair_of "caen" (truthy_string (caen filters)) ++
              pair_of "stare" (truthy_string (stare filters)) ++
              pair_of "data" (truthy_string (data filters)) ++
              pair_of "data_start" (truthy_string (data_start filters)) ++
              pair_of "data_end" (truthy_string (data_end filters)))%list,
        (pair_of "telefon" (flag <$> telefon filters) ++
         pair_of "page" (truthy_page (page filters)))%list.
      assert (Hp : params =
                   ((pair_of "q" (truthy_string (q filters)) ++
                     pair_of "judet" (truthy_string (judet filters)) ++
                     pair_of "localitate" (truthy_string (localitate filters)) ++
                     pair_of "caen" (truthy_string (caen filters)) ++
                     pair_of "stare" (truthy_string (stare filters)) ++
                     pair_of "data" (truthy_string (data filters)) ++
                     pair_of "data_start" (truthy_string (data_start filters)) ++
                     pair_of "data_end" (truthy_string (data_end filters))) ++
                    ("tva", "0") ::
                    pair_of "telefon" (flag <$> telefon filters) ++
                    pair_of "page" (truthy_page (page filters)))%list).
      { unfold params. rewrite search_params_pairs, H, <- !app_assoc. reflexivity. }
      split; [exact Hp |]. exact (search_url_middle filters _ _ "tva" "0" Hp).
  - intros H. split.
    + apply search_params_In. unfold filter_value. simpl.
      rewrite H. split; [reflexivity | tauto].
    + exists (pair_of "q" (truthy_string (q filters)) ++
              pair_of "judet" (truthy_string (judet filters)) ++
              pair_of "localitate" (truthy_string (localitate filters)) ++
              pair_of "caen" (truthy_string (caen filters)) ++
              pair_of "stare" (truthy_string (stare filters)) ++
              pair_of "data" (truthy_string (data filters)) ++
              pair_of "data_start" (truthy_string (data_start filters)) ++
              pair_of "data_end" (truthy_string (data_end filters)) ++
              pair_of "tva" (flag <$> tva filters))%list,
        (pair_of "page" (truthy_page (page filters))).
      assert (Hp : params =
                   ((pair_of "q" (truthy_string (q filters)) ++
                     pair_of "judet" (truthy_string (judet filters)) ++
                     pair_of "localitate" (truthy_string (localitate filters)) ++
                     pair_of "caen" (truthy_string (caen filters)) ++
                     pair_of "stare" (truthy_string (stare filters)) ++
                     pair_of "data" (truthy_string (data filters)) ++
                     pair_of "data_start" (truthy_string (data_start filters)) ++
                     pair_of "data_end" (truthy_string (data_end filters)) ++
                     pair_of "tva" (flag <$> tva filters)) ++
                    ("telefon", "0") ::
                    pair_of "page" (truthy_page (page filters)))%list).
      { unfold params. rewrite search_params_pairs, H, <- !app_assoc. reflexivity. }
      split; [exact Hp |]. exact (search_url_middle filters _ _ "telefon" "0" Hp).
Qed.

Lemma C10_empty_and_zero_filters_omitted_witness :
  In ("tva", "0")
    (search_params
       {| q := Some ""; judet := Some "CJ"; localitate := None; caen := None;
          stare := None; data := None; data_start := None; data_end := None;
          tva := Some false; telefon := None; page := Some (integer 0) |}).
Proof.
  destruct (C10_empty_and_zero_filters_omitted sample_client (answer 200 (JObj []))
              {| q := Some ""; judet := Some "CJ"; localitate := None; caen := None;
                 stare := None; data := None; data_start := None; data_end := None;
                 tva := Some false; telefon := None; page := Some (integer 0) |})
    as (_ & _ & _ & Htva & _).
  destruct (Htva eq_refl) as (Hin & _).
  exact Hin.
Defined.

(** * Further properties of the client *)

(** ** How an operation completes *)

(** Every operation either stops at the identifier check or is one call of
    [request] followed by the read of [data]. *)
Lemma run_shape (this : FirmeApi) (fetch : Fetch) (op : Operation) :
  run this fetch op = ([], Throw (ThrowFirmeApiError INVALID_CUI_FORMAT)) \/
  exists endpoint,
    run this fetch op =
    (request this fetch endpoint (if free_tier op then Some true else None)
       ≫= response_data).
Proof.
  destruct op as [op cui | filters |]; simpl run.
  - destruct (cleanCui cui) as [cleaned | t] eqn:E.
    + right. exists (cui_path op +:+ cleaned).
      destruct op; simpl;
        unfold getCompany, getBilant, getRestante, getMof, getFreeCompany;
        rewrite E, bind_call_lift_return; reflexivity.
    + left. rewrite (run_cui_throw this fetch op cui t E).
      unfold cleanCui in E.
      destruct ((String.length (remove_non_digits cui) <? 2)%nat
                || (10 <? String.length (remove_non_digits cui))%nat);
        [injection E as <-; reflexivity | discriminate E].
  - right. eexists. reflexivity.
  - right. eexists. reflexivity.
Qed.

Lemma request_then_data_outcome (this : FirmeApi) (fetch : Fetch) (endpoint : string)
    (isFreeApi : option bool) :
  outcome (request this fetch endpoint isFreeApi ≫= response_data) =
  match request_try fetch (request_init this endpoint isFreeApi) with
  | Return body =>
      match get_property body "data" with
      | Some v => Return v
      | None => Throw (TypeError_read body "data")
      end
  | Throw error => Throw (request_catch this error)
  end.
Proof.
  unfold request. simpl.
  destruct (request_try fetch (request_init this endpoint isFreeApi)) as [body | error];
    [| reflexivity].
  unfold response_data, call_lift.
  destruct (get_property body "data"); reflexivity.
Qed.

(** The outcome of an operation in terms of the exchange of the request it
    issued. *)
Lemma run_outcome (this : FirmeApi) (fetch : Fetch) (op : Operation) (init : RequestInit) :
  In init (issued (run this fetch op)) ->
  outcome (run this fetch op) =
  match request_try fetch init with
  | Return body =>
      match get_property body "data" with
      | Some v => Return v
      | None => Throw (TypeError_read body "data")
      end
  | Throw error => Throw (request_catch this error)
  end.
Proof.
  destruct (run_shape this fetch op) as [-> | (endpoint & ->)]; [intros [] |].
  rewrite bind_response_data_issued, request_issued.
  intros [<- | []]. apply request_then_data_outcome.
Qed.

Lemma request_try_parsed (fetch : Fetch) (init : RequestInit)
    (response : Response) (body : JsValue) :
  fetch init = Return response ->
  json response = Return body ->
  request_try fetch init =
  if ok response then Return body
  else Throw (handleErrorResponse (status response) body).
Proof.
  intros Hf Hj. unfold request_try. rewrite Hf, Hj.
  destruct (ok response); reflexivity.
Qed.

(** X1. When the request of an operation is answered with a 2xx status
    and a body that decodes to an object, the operation returns that
    object's [data] property and nothing else of the envelope: [undefined]
    when the body has no [data], and the same whatever the body's
    [success] flag says. *)
Theorem X1_success_returns_data_property
    (this : FirmeApi) (fetch : Fetch) (op : Operation) (init : RequestInit)
    (response : Response) (fields : list (string * JsValue)) :
  In init (issued (run this fetch op)) ->
  fetch init = Return response ->
  ok response = true ->
  json response = Return (JObj fields) ->
  outcome (run this fetch op) =
    Return match lookup_field fields "data" with Some v => v | None => JUndefined end.
Proof.
  intros Hin Hf Hok Hj.
  rewrite (run_outcome this fetch op init Hin).
  rewrite (request_try_parsed fetch init response _ Hf Hj), Hok.
  reflexivity.
Qed.

Lemma X1_success_returns_data_property_witness :
  outcome (run sample_client (answer 200 (JObj company_envelope))
             (WithCui OpGetCompany "12345678"))
  = Return (JObj [("cui", JNum (integer 12345678)); ("denumire", JStr "ACME")]).
Proof.
  exact (X1_success_returns_data_property sample_client
           (answer 200 (JObj company_envelope))
           (WithCui OpGetCompany "12345678")
           (request_init sample_client "/v1/firma/12345678" None)
           {| status := 200; json := Return (JObj company_envelope) |}
           company_envelope (or_introl eq_refl) eq_refl eq_refl eq_refl).
Defined.

(** X2. When the 2xx body decodes to something that is not an object:
    [null] makes the operation throw a [TypeError], which is none of the
    typed failures, because [data] is read outside the [try] of [request];
    a number, a string, a boolean or an array makes it return
    [undefined]. *)
Theorem X2_success_with_non_object_body
    (this : FirmeApi) (fetch : Fetch) (op : Operation) (init : RequestInit)
    (response : Response) (body : JsValue) :
  In init (issued (run this fetch op)) ->
  fetch init = Return response ->
  ok response = true ->
  json response = Return body ->
  (body = JNull ->
     exists message,
       outcome (run this fetch op) = Throw (ThrowError "TypeError" message)) /\
  ((exists n, body = JNum n) \/ (exists s, body = JStr s) \/
   (exists b, body = JBool b) \/ (exists items, body = JArr items) ->
     outcome (run this fetch op) = Return JUndefined).
Proof.
  intros Hin Hf Hok Hj.
  rewrite (run_outcome this fetch op init Hin).
  rewrite (request_try_parsed fetch init response _ Hf Hj), Hok.
  split.
  - intros ->. eexists. reflexivity.
  - intros [(n & ->) | [(s & ->) | [(b & ->) | (items & ->)]]]; reflexivity.
Qed.

Lemma X2_success_with_non_object_body_witness :
  exists message,
    outcome (run sample_client (answer 200 JNull) GetFreeApiUsage)
    = Throw (ThrowError "TypeError" message).
Proof.
  destruct (X2_success_with_non_object_body sample_client (answer 200 JNull)
              GetFreeApiUsage (request_init sample_client "/free/usage" (Some true))
              {| status := 200; json := Return JNull |} JNull)
    as (Hnull & _).
  - left. reflexivity.
  - reflexivity.
  - reflexivity.
  - reflexivity.
  - apply Hnull. reflexivity.
Defined.

(** X3. A non-2xx response whose body decodes to [null] is not classified
    by its status: reading the message of [null] raises a [TypeError]
    inside the [try], and the operation throws a Network failure.  A body
    that is a number, a string, a boolean or an array is classified by the
    status like an object without fields, with message "Unknown error" and
    code "UNKNOWN_ERROR". *)
Theorem X3_error_with_non_object_body
    (this : FirmeApi) (fetch : Fetch) (op : Operation) (init : RequestInit)
    (response : Response) (body : JsValue) :
  In init (issued (run this fetch op)) ->
  fetch init = Return response ->
  ok response = false ->
  json response = Return body ->
  (body = JNull ->
     exists message,
       outcome (run this fetch op) = Throw (ThrowFirmeApiError (NetworkError message))) /\
  ((exists n, body = JNum n) \/ (exists s, body = JStr s) \/
   (exists b, body = JBool b) \/ (exists items, body = JArr items) ->
     exists e,
       outcome (run this fetch op) = Throw (ThrowFirmeApiError e) /\
       classify (status response) [] = Some e /\
       Errors.message e = "Unknown error" /\
       Errors.code e = JStr "UNKNOWN_ERROR").
Proof.
  intros Hin Hf Hok Hj.
  rewrite (run_outcome this fetch op init Hin).
  rewrite (request_try_parsed fetch init response _ Hf Hj), Hok.
  split.
  - intros ->. eexists. reflexivity.
  - intros Hbody.
    exists (select (status response) "Unknown error" (JStr "UNKNOWN_ERROR") []).
    split; [| split; [reflexivity | split]].
    + destruct Hbody as [(n & ->) | [(s & ->) | [(b & ->) | (items & ->)]]];
        reflexivity.
    + apply select_message.
    + apply select_code.
Qed.

Lemma X3_error_with_non_object_body_witness :
  exists message,
    outcome (run sample_client (answer 404 JNull) (WithCui OpGetMof "12345678"))
    = Throw (ThrowFirmeApiError (NetworkError message)).
Proof.
  destruct (X3_error_with_non_object_body sample_client (answer 404 JNull)
              (WithCui OpGetMof "12345678")
              (request_init sample_client "/v1/mof/12345678" None)
              {| status := 404; json := Return JNull |} JNull)
    as (Hnull & _).
  - left. reflexivity.
  - reflexivity.
  - reflexivity.
  - reflexivity.
  - apply Hnull. reflexivity.
Defined.

Lemma request_throws_typed (this : FirmeApi) (fetch : Fetch) (endpoint : string)
    (isFreeApi : option bool) (t : Thrown) :
  outcome (request this fetch endpoint isFreeApi) = Throw t ->
  exists e, t = ThrowFirmeApiError e.
Proof.
  rewrite request_outcome.
  destruct (request_try fetch (request_init this endpoint isFreeApi)) as [d | error];
    [discriminate |].
  intros [= <-]. apply request_catch_typed.
Qed.

Lemma get_property_None (v : JsValue) (k : string) :
  get_property v k = None -> nullish v = true.
Proof. destruct v; simpl; (reflexivity || discriminate). Qed.

Lemma request_try_Return (fetch : Fetch) (init : RequestInit) (body : JsValue) :
  request_try fetch init = Return body ->
  exists response,
    fetch init = Return response /\ ok response = true /\ json response = Return body.
Proof.
  unfold request_try.
  destruct (fetch init) as [response | error]; [| discriminate].
  destruct (json response) as [data | error] eqn:Hj; [| discriminate].
  destruct (ok response) eqn:Hok; simpl; [| discriminate].
  intros [= ->]. exists response. auto.
Qed.

(** X4. [request] throws nothing but typed failures.  An operation
    throws a typed failure too, with one exception: the [TypeError] of
    reading [data] from a 2xx body that decoded to [null]. *)
Theorem X4_what_an_operation_can_throw (this : FirmeApi) (fetch : Fetch) :
  (forall endpoint isFreeApi t,
     outcome (request this fetch endpoint isFreeApi) = Throw t ->
     exists e, t = ThrowFirmeApiError e) /\
  (forall op t,
     outcome (run this fetch op) = Throw t ->
     (exists e, t = ThrowFirmeApiError e) \/
     (exists init response body,
        In init (issued (run this fetch op)) /\
        fetch init = Return response /\ ok response = true /\
        json response = Return body /\ nullish body = true /\
        t = TypeError_read body "data")).
Proof.
  split; [intros endpoint isFreeApi t; apply request_throws_typed |].
  intros op t.
  destruct (run_shape this fetch op) as [-> | (endpoint & ->)].
  - intros [= <-]. left. eauto.
  - rewrite request_then_data_outcome, bind_response_data_issued, request_issued.
    destruct (request_try fetch _) as [body | error] eqn:Htry.
    + destruct (get_property body "data") eqn:Hdata; [discriminate |].
      intros [= <-]. right.
      destruct (request_try_Return _ _ _ Htry) as (response & Hf & Hok & Hj).
      exists (request_init this endpoint (if free_tier op then Some true else None)),
        response, body.
      repeat split; auto.
      * left. reflexivity.
      * apply (get_property_None _ _ Hdata).
    + intros [= <-]. left. apply request_catch_typed.
Qed.

Lemma X4_what_an_operation_can_throw_witness :
  exists e,
    outcome (request sample_client (reject (ThrowError "TypeError" "fetch failed"))
               "/free/usage" (Some true))
    = Throw (ThrowFirmeApiError e).
Proof.
  destruct (X4_what_an_operation_can_throw sample_client
              (reject (ThrowError "TypeError" "fetch failed"))) as (Hrequest & _).
  destruct (Hrequest "/free/usage" (Some true)
              (ThrowFirmeApiError (NetworkError "fetch failed")) eq_refl) as (e & He).
  exists e. rewrite <- He. reflexivity.
Defined.




(** ** Identifiers *)

Lemma remove_non_digits_idempotent (s : string) :
  remove_non_digits (remove_non_digits s) = remove_non_digits s.
Proof.
  induction s as [| c s IH]; simpl; [reflexivity |].
  destruct (is_digit c) eqn:E; simpl; [rewrite E, IH; reflexivity | exact IH].
Qed.

Lemma cleanCui_Return (cui cleaned : string) :
  cleanCui cui = Return cleaned ->
  cleaned = remove_non_digits cui /\ (2 <= String.length cleaned <= 10)%nat.
Proof.
  unfold cleanCui.
  destruct (Nat.ltb_spec (String.length (remove_non_digits cui)) 2);
    destruct (Nat.ltb_spec 10 (String.length (remove_non_digits cui)));
    simpl; try discriminate.
  intros [= <-]. split; [reflexivity | lia].
Qed.

Lemma run_cui_by_cleanCui (this : FirmeApi) (fetch : Fetch) (op : CuiOperation)
    (a b : string) :
  cleanCui a = cleanCui b -> run_cui this fetch op a = run_cui this fetch op b.
Proof.
  intros H.
  destruct op; simpl;
    unfold getCompany, getBilant, getRestante, getMof, getFreeCompany;
    rewrite H; reflexivity.
Qed.

(** X6. An identifier-taking operation looks at the digits of the
    identifier only: two identifiers with the same digits, in the same
    order, give the same requests and the same outcome.  An accepted
    identifier is cleaned to 2 to 10 digits, which are accepted unchanged
    when passed again. *)
Theorem X6_identifier_formatting_ignored
    (this : FirmeApi) (fetch : Fetch) (op : CuiOperation) (a b : string) :
  remove_non_digits a = remove_non_digits b ->
  run_cui this fetch op a = run_cui this fetch op b /\
  (forall cleaned, cleanCui a = Return cleaned ->
     cleanCui cleaned = Return cleaned /\
     Forall (fun c => is_digit c = true) (list_ascii_of_string cleaned) /\
     run_cui this fetch op cleaned = run_cui this fetch op a).
Proof.
  intros Hab. split.
  - apply run_cui_by_cleanCui. unfold cleanCui. rewrite Hab. reflexivity.
  - intros cleaned Hc.
    destruct (cleanCui_Return a cleaned Hc) as (-> & Hlen).
    assert (Hidem : cleanCui (remove_non_digits a) = Return (remove_non_digits a)).
    { rewrite <- (remove_non_digits_idempotent a) at 2.
      apply cleanCui_accepts. rewrite remove_non_digits_idempotent. exact Hlen. }
    split; [exact Hidem |]. split.
    + rewrite remove_non_digits_filter. apply List.Forall_forall.
      intros c Hin. apply filter_In in Hin. tauto.
    + apply run_cui_by_cleanCui. rewrite Hidem, Hc. reflexivity.
Qed.

Lemma X6_identifier_formatting_ignored_witness :
  run_cui sample_client (answer 200 (JObj company_envelope)) OpGetCompany "RO 1234 5678"
  = run_cui sample_client (answer 200 (JObj company_envelope)) OpGetCompany "12345678".
Proof.
  destruct (X6_identifier_formatting_ignored sample_client
              (answer 200 (JObj company_envelope)) OpGetCompany
              "RO 1234 5678" "12345678" eq_refl) as (Hsame & _).
  exact Hsame.
Defined.

(** ** What a classified failure carries *)

Lemma select_statusCode (s : Z) (message : string) (code : JsValue)
    (fields : list (string * JsValue)) :
  (s = 403 /\ ~ credits_code code ->
     Errors.name (select s message code fields) = "AuthenticationError" /\
     Errors.statusCode (select s message code fields) = 401) /\
  (~ (s = 403 /\ ~ credits_code code) ->
     Errors.statusCode (select s message code fields) = s).
Proof.
  unfold select. split.
  - intros [-> Hc]. simpl.
    destruct (strict_eq_str code "CREDITS_EXHAUSTED"
              || strict_eq_str code "MOF_INSUFFICIENT_CREDITS") eqn:E;
      [apply credits_code_test in E; contradiction | split; reflexivity].
  - intros Hn.
    destruct (Z.eqb_spec s 401) as [-> | H401]; [reflexivity |].
    destruct (Z.eqb_spec s 403) as [-> | H403].
    + destruct (strict_eq_str code "CREDITS_EXHAUSTED"
                || strict_eq_str code "MOF_INSUFFICIENT_CREDITS") eqn:E;
        [reflexivity |].
      exfalso. apply Hn. split; [reflexivity |].
      intros Hc. apply credits_code_test in Hc. congruence.
    + destruct (Z.eqb_spec s 404) as [-> | H404]; [reflexivity |].
      destruct (Z.eqb_spec s 429) as [-> | H429]; [reflexivity |].
      destruct (Z.eqb_spec s 400) as [-> | H400]; reflexivity.
Qed.

(** X7. When an operation's request is answered with a non-2xx status
    and an object whose chosen message converts to a string, the
    [statusCode] of the failure thrown is the HTTP status of the response,
    except at 403 with a machine code other than the two credits codes:
    the failure is then an Authentication failure and reports 401. *)
Theorem X7_failure_reports_status
    (this : FirmeApi) (fetch : Fetch) (op : Operation) (init : RequestInit)
    (response : Response) (fields : list (string * JsValue)) (message : string) :
  In init (issued (run this fetch op)) ->
  fetch init = Return response ->
  ok response = false ->
  json response = Return (JObj fields) ->
  error_message fields = Some message ->
  exists e,
    outcome (run this fetch op) = Throw (ThrowFirmeApiError e) /\
    handleErrorResponse (status response) (JObj fields) = ThrowFirmeApiError e /\
    (status response = 403 /\ ~ credits_code (error_code fields) ->
       Errors.name e = "AuthenticationError" /\ Errors.statusCode e = 401) /\
    (~ (status response = 403 /\ ~ credits_code (error_code fields)) ->
       Errors.statusCode e = status response).
Proof.
  intros Hin Hf Hok Hj Hmessage.
  exists (select (status response) message (error_code fields) fields).
  assert (Hthrown : handleErrorResponse (status response) (JObj fields) =
                    ThrowFirmeApiError
                      (select (status response) message (error_code fields) fields))
    by (apply handleErrorResponse_object, classify_Some, Hmessage).
  split.
  - rewrite (run_outcome this fetch op init Hin).
    rewrite (request_try_parsed fetch init response _ Hf Hj), Hok, Hthrown.
    reflexivity.
  - split; [exact Hthrown | apply select_statusCode].
Qed.

Lemma X7_failure_reports_status_witness :
  exists e,
    outcome (run sample_client (answer 403 (JObj [("code", JStr "FORBIDDEN")]))
               (WithCui OpGetCompany "12345678"))
    = Throw (ThrowFirmeApiError e) /\
    Errors.statusCode e = 401.
Proof.
  destruct (X7_failure_reports_status sample_client
              (answer 403 (JObj [("code", JStr "FORBIDDEN")]))
              (WithCui OpGetCompany "12345678")
              (request_init sample_client "/v1/firma/12345678" None)
              {| status := 403; json := Return (JObj [("code", JStr "FORBIDDEN")]) |}
              [("code", JStr "FORBIDDEN")] "Unknown error"
              (or_introl eq_refl) eq_refl eq_refl eq_refl eq_refl)
    as (e & Hout & _ & H403 & _).
  exists e. split; [exact Hout |].
  apply H403. split; [reflexivity |]. intros [H | H]; discriminate H.
Defined.

Lemma error_code_truthy (fields : list (string * JsValue)) :
  truthy (error_code fields) = true.
Proof.
  unfold error_code, js_or.
  destruct (truthy (own_property fields "code")) eqn:E; [exact E | reflexivity].
Qed.

Lemma throw_classified_code_truthy (this : FirmeApi) (s : Z)
    (fields : list (string * JsValue)) :
  exists e,
    request_catch this (throw_classified s fields) = ThrowFirmeApiError e /\
    truthy (Errors.code e) = true.
Proof.
  unfold throw_classified, classify.
  destruct (error_message fields) as [message |]; simpl.
  - eexists. split; [reflexivity |]. rewrite select_code. apply error_code_truthy.
  - eexists. split; reflexivity.
Qed.

Lemma handleErrorResponse_code_truthy (this : FirmeApi) (s : Z) (body : JsValue) :
  exists e,
    request_catch this (handleErrorResponse s body) = ThrowFirmeApiError e /\
    truthy (Errors.code e) = true.
Proof.
  destruct body;
    try exact (throw_classified_code_truthy this s []);
    try apply throw_classified_code_truthy;
    (simpl; eexists; split; reflexivity).
Qed.

(** X8. An operation whose request is answered with a non-2xx status and
    a body that parses, whatever it decodes to, throws a typed failure
    whose machine code is truthy: it is never empty, [null] or
    [undefined]. *)
Theorem X8_error_response_has_a_code
    (this : FirmeApi) (fetch : Fetch) (op : Operation) (init : RequestInit)
    (response : Response) (body : JsValue) :
  In init (issued (run this fetch op)) ->
  fetch init = Return response ->
  ok response = false ->
  json response = Return body ->
  exists e,
    outcome (run this fetch op) = Throw (ThrowFirmeApiError e) /\
    truthy (Errors.code e) = true.
Proof.
  intros Hin Hf Hok Hj.
  rewrite (run_outcome this fetch op init Hin).
  rewrite (request_try_parsed fetch init response _ Hf Hj), Hok.
  destruct (handleErrorResponse_code_truthy this (status response) body) as (e & -> & He).
  exists e. split; [reflexivity | exact He].
Qed.

Lemma X8_error_response_has_a_code_witness :
  exists e,
    outcome (run sample_client (answer 401 (JObj empty_strings_body))
               (WithCui OpGetRestante "12345678"))
    = Throw (ThrowFirmeApiError e) /\
    truthy (Errors.code e) = true.
Proof.
  exact (X8_error_response_has_a_code sample_client
           (answer 401 (JObj empty_strings_body)) (WithCui OpGetRestante "12345678")
           (request_init sample_client "/v1/restante/12345678" None)
           {| status := 401; json := Return (JObj empty_strings_body) |}
           (JObj empty_strings_body) (or_introl eq_refl) eq_refl eq_refl eq_refl).
Defined.

(** ** Headers and configuration *)

Lemma request_headers_keys (this : FirmeApi) (isFreeApi : option bool) (k : string) :
  is_Some (request_headers this isFreeApi !! k) <->
  In k ["Content-Type"; "Accept"; "User-Agent"; "X-API-KEY"] \/
  (k = "X-Sandbox" /\ sandbox this && negb (default false isFreeApi) = true).
Proof.
  unfold request_headers.
  destruct (sandbox this && negb (default false isFreeApi));
    rewrite ?lookup_insert_is_Some, lookup_empty, is_Some_alt; simpl;
    intuition (try discriminate; try congruence).
Qed.

(** X9. A request carries no header besides Content-Type, Accept,
    User-Agent and X-API-KEY, and X-Sandbox on a standard-tier call of a
    client in sandbox mode. *)
Theorem X9_no_other_header
    (this : FirmeApi) (fetch : Fetch) (op : Operation) (init : RequestInit) (k : string) :
  In init (issued (run this fetch op)) ->
  (is_Some (headers init !! k) <->
   In k ["Content-Type"; "Accept"; "User-Agent"; "X-API-KEY"] \/
   (k = "X-Sandbox" /\ sandbox this = true /\ free_tier op = false)).
Proof.
  intros Hin. destruct (run_issued this fetch op init Hin) as (endpoint & ->).
  simpl headers. rewrite request_headers_keys.
  destruct (sandbox this), (free_tier op); simpl; intuition discriminate.
Qed.

Lemma X9_no_other_header_witness :
  ~ is_Some (headers (request_init sample_client "/free/usage" (Some true))
               !! "Authorization").
Proof.
  intros H.
  apply (X9_no_other_header sample_client (answer 200 (JObj company_envelope))
           GetFreeApiUsage (request_init sample_client "/free/usage" (Some true))
           "Authorization" (or_introl eq_refl)) in H.
  destruct H as [H | (H & _)]; [| discriminate H].
  simpl in H. repeat (destruct H as [H | H]; [discriminate H |]). exact H.
Defined.

(** X10. A client that was constructed holds the configuration's
    credential, which is not empty, and every request of every operation
    sends that credential in X-API-KEY, to a URL that starts with the
    configured base URL (the fixed one when none is configured), with
    X-Sandbox exactly when the configuration turns sandbox on and the call
    is standard-tier. *)
Theorem X10_requests_follow_configuration
    (config : Config.FirmeApiConfig) (client : FirmeApi) (fetch : Fetch)
    (op : Operation) (init : RequestInit) :
  constructor config = Return client ->
  In init (issued (run client fetch op)) ->
  Config.apiKey config = Some (apiKey client) /\
  apiKey client <> "" /\
  headers init !! "X-API-KEY" = Config.apiKey config /\
  (exists endpoint,
     url init =
     match Config.baseUrl config with
     | Some u => u
     | None => "https://www.firmeapi.ro/api"
     end +:+ endpoint) /\
  (is_Some (headers init !! "X-Sandbox") <->
   Config.sandbox config = Some true /\ free_tier op = false).
Proof.
  intros Hc Hin. unfold constructor in Hc.
  destruct (Config.apiKey config) as [[| c key] |] eqn:Hkey; try discriminate Hc.
  injection Hc as <-.
  destruct (run_issued _ fetch op init Hin) as (endpoint & ->).
  simpl. split; [reflexivity |]. split; [discriminate |].
  split; [apply request_headers_fixed |].
  split.
  - exists endpoint. destruct (Config.baseUrl config); reflexivity.
  - rewrite request_headers_keys. simpl.
    destruct (Config.sandbox config) as [[] |], (free_tier op); simpl;
      intuition (try discriminate; try congruence).
Qed.

Lemma X10_requests_follow_configuration_witness :
  headers (request_init sample_client "/free/usage" (Some true)) !! "X-API-KEY"
  = Some "fa_live_key".
Proof.
  destruct (X10_requests_follow_configuration
              {| Config.apiKey := Some "fa_live_key"; Config.sandbox := Some true;
                 Config.baseUrl := None; Config.timeout := None |}
              sample_client (answer 200 (JObj company_envelope)) GetFreeApiUsage
              (request_init sample_client "/free/usage" (Some true))
              eq_refl (or_introl eq_refl)) as (_ & _ & Hkey & _).
  exact Hkey.
Defined.

(** ** The shape of the search path *)

Lemma truthy_string_text (v : option string) :
  truthy_string v = match v with Some "" => None | _ => v end.
Proof. destruct v as [[| c s] |]; reflexivity. Qed.

Lemma truthy_page_None (v : option JsNumber) :
  truthy_page v = None <->
  match v with
  | Some n => if number_truthy n then v else None
  | None => None
  end = None.
Proof.
  destruct v as [n |]; simpl; [| tauto].
  destruct (number_truthy n); split; (reflexivity || discriminate).
Qed.

Lemma pair_of_nil (k : string) (v : option string) : pair_of k v = [] <-> v = None.
Proof. destruct v; simpl; split; (reflexivity || discriminate). Qed.

(** X11. A search goes to the bare path /v1/firme exactly when the query
    is empty, which is exactly when no filter is left once the empty
    strings and a falsy page (a zero or not-a-number) are taken out; tva
    or telefon set to false is enough to produce a query. *)
Theorem X11_bare_path_iff_no_effective_filter (filters : SearchFilters) :
  (search_url filters = "/v1/firme" <-> search_params filters = []) /\
  (search_params filters = [] <-> without_falsy filters = Filters.none).
Proof.
  split.
  - rewrite search_url_query, <- toString_empty.
    destruct (String.eqb_spec (URLSearchParams.toString (search_params filters)) "")
      as [E | E].
    + tauto.
    + split; [simpl; discriminate | contradiction].
  - rewrite search_params_pairs. split.
    + intros H.
      repeat (apply app_eq_nil in H; destruct H as [?H H]).
      repeat match goal with
             | Hp : pair_of _ _ = [] |- _ => apply pair_of_nil in Hp
             end.
      unfold without_falsy, Filters.none.
      rewrite <- !truthy_string_text.
      apply truthy_page_None in H.
      destruct (tva filters); [discriminate |].
      destruct (telefon filters); [discriminate |].
      f_equal; assumption.
    + intros H. unfold without_falsy, Filters.none in H.
      injection H as Hq Hj Hl Hc Hs Hd Hds Hde Ht Hf Hp.
      rewrite <- truthy_string_text in Hq, Hj, Hl, Hc, Hs, Hd, Hds, Hde.
      apply truthy_page_None in Hp.
      rewrite Hq, Hj, Hl, Hc, Hs, Hd, Hds, Hde, Ht, Hf, Hp. reflexivity.
Qed.

Lemma X11_bare_path_iff_no_effective_filter_witness :
  search_url {| q := Some ""; judet := None; localitate := Some ""; caen := None;
                stare := None; data := None; data_start := None; data_end := None;
                tva := None; telefon := None; page := Some NaN |}
  = "/v1/firme".
Proof.
  destruct (X11_bare_path_iff_no_effective_filter
              {| q := Some ""; judet := None; localitate := Some ""; caen := None;
                 stare := None; data := None; data_start := None; data_end := None;
                 tva := None; telefon := None; page := Some NaN |})
    as (Hurl & Hparams).
  apply Hurl, Hparams. reflexivity.
Defined.

(** ** The separators of the query *)

Lemma occurrences_append (c : ascii) (a b : string) :
  occurrences c (a +:+ b) = (occurrences c a + occurrences c b)%nat.
Proof.
  induction a as [| d a IH]; [reflexivity |].
  change (occurrences c (String d (a +:+ b)) =
          (occurrences c (String d a) + occurrences c b)%nat).
  simpl. rewrite IH. lia.
Qed.

Lemma In_append (c : ascii) (a b : string) :
  In c (list_ascii_of_string (a +:+ b)) <->
  In c (list_ascii_of_string a) \/ In c (list_ascii_of_string b).
Proof.
  induction a as [| d a IH]; [simpl; tauto |].
  change (In c (d :: list_ascii_of_string (a +:+ b)) <->
          In c (d :: list_ascii_of_string a) \/ In c (list_ascii_of_string b)).
  simpl. rewrite IH. tauto.
Qed.

Lemma occurrences_absent (c : ascii) (s : string) :
  ~ In c (list_ascii_of_string s) -> occurrences c s = 0%nat.
Proof.
  induction s as [| d s IH]; simpl; [reflexivity |].
  intros H. destruct (Ascii.eqb_spec d c) as [-> | Hne]; [tauto |].
  apply IH. tauto.
Qed.

Lemma encode_byte_safe (c d : ascii) :
  In d (list_ascii_of_string (URLSearchParams.encode_byte c)) -> query_safe d = true.
Proof.
  assert (H : forallb query_safe (list_ascii_of_string (URLSearchParams.encode_byte c))
              = true)
    by (destruct c as [[] [] [] [] [] [] [] []]; vm_compute; reflexivity).
  rewrite forallb_forall in H. apply H.
Qed.

Lemma encode_safe (s : string) (d : ascii) :
  In d (list_ascii_of_string (URLSearchParams.encode s)) -> query_safe d = true.
Proof.
  induction s as [| c s IH]; simpl; [intros [] |].
  rewrite In_append. intros [H | H]; [exact (encode_byte_safe c d H) | exact (IH H)].
Qed.

Lemma encode_no_separator (c : ascii) (s : string) :
  query_safe c = false -> occurrences c (URLSearchParams.encode s) = 0%nat.
Proof.
  intros Hc. apply occurrences_absent. intros H.
  apply encode_safe in H. congruence.
Qed.

Lemma toString_occurrences (params : URLSearchParams.t) :
  occurrences "=" (URLSearchParams.toString params) = length params /\
  occurrences "&" (URLSearchParams.toString params) = pred (length params).
Proof.
  induction params as [| [n v] rest [IHeq IHamp]]; [split; reflexivity |].
  rewrite toString_cons, !occurrences_append.
  rewrite !(encode_no_separator "=") by reflexivity.
  rewrite !(encode_no_separator "&") by reflexivity.
  destruct rest as [| p rest].
  - split; reflexivity.
  - rewrite !occurrences_append, IHeq, IHamp. split; simpl; lia.
Qed.

Lemma toString_bytes (params : URLSearchParams.t) (c : ascii) :
  In c (list_ascii_of_string (URLSearchParams.toString params)) ->
  query_safe c = true \/ c = "="%char \/ c = "&"%char.
Proof.
  induction params as [| [n v] rest IH]; [intros [] |].
  rewrite toString_cons, !In_append.
  intros [H | [H | [H | H]]].
  - left. exact (encode_safe n c H).
  - destruct H as [<- | []]. auto.
  - left. exact (encode_safe v c H).
  - destruct rest as [| p rest]; [destruct H |].
    rewrite In_append in H. destruct H as [[<- | []] | H]; auto.
Qed.

Lemma key_order_NoDup : NoDup key_order.
Proof.
  unfold key_order.
  repeat (apply NoDup_cons; split;
          [rewrite list_elem_of_In; simpl; intuition discriminate |]).
  apply NoDup_nil. constructor.
Qed.

Lemma search_params_keys (filters : SearchFilters) :
  map fst (search_params filters) `sublist_of` key_order.
Proof.
  rewrite search_params_pairs, !map_app.
  change key_order with
    (["q"] ++ ["judet"] ++ ["localitate"] ++ ["caen"] ++ ["stare"] ++ ["data"] ++
     ["data_start"] ++ ["data_end"] ++ ["tva"] ++ ["telefon"] ++ ["page"])%list.
  repeat apply sublist_app; apply pair_of_sublist.
Qed.

(** X12. The query of a search names no filter twice and holds at most
    eleven pairs.  Names and values are written with letters, digits and
    the bytes [* - . _ + %] only, so the query has exactly one [=] per
    pair and one [&] between two pairs: no filter value can add or split a
    parameter. *)
Theorem X12_query_is_well_formed (filters : SearchFilters) :
  let params := search_params filters in
  let query := URLSearchParams.toString params in
  NoDup (map fst params) /\
  (length params <= 11)%nat /\
  occurrences "=" query = length params /\
  occurrences "&" query = pred (length params) /\
  (forall c, In c (list_ascii_of_string query) ->
     query_safe c = true \/ c = "="%char \/ c = "&"%char).
Proof.
  intros params query.
  split; [exact (sublist_NoDup _ _ key_order_NoDup (search_params_keys filters)) |].
  split.
  - pose proof (sublist_length _ _ (search_params_keys filters)) as H.
    rewrite length_map in H. exact H.
  - split; [apply toString_occurrences |].
    split; [apply toString_occurrences | apply toString_bytes].
Qed.

Lemma X12_query_is_well_formed_witness :
  occurrences "&"
    (URLSearchParams.toString
       (search_params
          {| q := Some "a&page=9"; judet := Some "B"; localitate := None; caen := None;
             stare := None; data := None; data_start := None; data_end := None;
             tva := None; telefon := None; page := None |}))
  = 1%nat.
Proof.
  destruct (X12_query_is_well_formed
              {| q := Some "a&page=9"; judet := Some "B"; localitate := None;
                 caen := None; stare := None; data := None; data_start := None;
                 data_end := None; tva := None; telefon := None; page := None |})
    as (_ & _ & _ & Hamp & _).
  exact Hamp.
Defined.

(** ** A message that does not convert *)

Lemma ToString_own_toString (fields : list (string * JsValue)) (v : JsValue) :
  lookup_field fields "toString" = Some v -> ToString (JObj fields) = None.
Proof. intros H. simpl. rewrite H. reflexivity. Qed.

(** X13. When the request of an operation is answered with a non-2xx
    status and an object whose chosen message does not convert to a
    string, as an object with an own [toString] property does not, no
    failure is classified by the status: the constructor of the selected
    failure throws inside the [try], and the operation throws a Network
    failure. *)
Theorem X13_unprintable_message_is_not_classified
    (this : FirmeApi) (fetch : Fetch) (op : Operation) (init : RequestInit)
    (response : Response) (fields : list (string * JsValue)) :
  In init (issued (run this fetch op)) ->
  fetch init = Return response ->
  ok response = false ->
  json response = Return (JObj fields) ->
  ToString (chosen_message fields) = None ->
  (exists message,
     outcome (run this fetch op) = Throw (ThrowFirmeApiError (NetworkError message))) /\
  (forall e, handleErrorResponse (status response) (JObj fields)
             <> ThrowFirmeApiError e) /\
  (forall inner v,
     lookup_field inner "toString" = Some v ->
     ToString (JObj inner) = None).
Proof.
  intros Hin Hf Hok Hj Hmessage.
  assert (Hthrown : handleErrorResponse (status response) (JObj fields)
                    = TypeError_convert).
  { simpl. unfold throw_classified, classify, error_message.
    rewrite Hmessage. reflexivity. }
  split; [| split].
  - rewrite (run_outcome this fetch op init Hin).
    rewrite (request_try_parsed fetch init response _ Hf Hj), Hok, Hthrown.
    eexists. reflexivity.
  - intros e. rewrite Hthrown. discriminate.
  - apply ToString_own_toString.
Qed.

Lemma X13_unprintable_message_is_not_classified_witness :
  exists message,
    outcome (run sample_client (answer 401 (JObj unprintable_body))
               (WithCui OpGetCompany "12345678"))
    = Throw (ThrowFirmeApiError (NetworkError message)).
Proof.
  destruct (X13_unprintable_message_is_not_classified sample_client
              (answer 401 (JObj unprintable_body)) (WithCui OpGetCompany "12345678")
              (request_init sample_client "/v1/firma/12345678" None)
              {| status := 401; json := Return (JObj unprintable_body) |}
              unprintable_body (or_introl eq_refl) eq_refl eq_refl eq_refl eq_refl)
    as (Hnetwork & _).
  exact Hnetwork.
Defined.

(** ** The constructors and their defaults *)

Lemma param_defined (v d : JsValue) : v <> JUndefined -> New.param v d = v.
Proof. destruct v; simpl; congruence. Qed.

Lemma truthy_defined (v : JsValue) : truthy v = true -> v <> JUndefined.
Proof. intros H ->. discriminate H. Qed.

Lemma js_or_truthy (a b : JsValue) : truthy b = true -> truthy (js_or a b) = true.
Proof. intros Hb. unfold js_or. destruct (truthy a) eqn:E; [exact E | exact Hb]. Qed.

Lemma js_coalesce_defined (a : JsValue) (n : JsNumber) :
  js_coalesce a (JNum n) <> JUndefined.
Proof. destruct a; simpl; discriminate. Qed.

Lemma Error_message_defined (v : JsValue) :
  v <> JUndefined -> New.Error_message v = ToString v.
Proof. destruct v; simpl; congruence. Qed.

(** X14. The default parameters of the error constructors never apply to
    a failure built for an error response: every argument that
    [handleErrorResponse] passes is defined, so the failure holds exactly
    those arguments, and the constructor throws exactly when the chosen
    message does not convert.  A response without a code gives
    "UNKNOWN_ERROR", not the default code of the failure's class, and the
    server's [null] counter has already become the default of
    [handleErrorResponse]. *)
Theorem X14_constructor_defaults_never_apply (statusCode : Z)
    (fields : list (string * JsValue)) :
  handleErrorResponse_new statusCode fields = classify statusCode fields /\
  (handleErrorResponse_new statusCode fields = None <->
   ToString (chosen_message fields) = None) /\
  (forall e, lookup_field fields "code" = None ->
     handleErrorResponse_new statusCode fields = Some e ->
     Errors.code e = JStr "UNKNOWN_ERROR") /\
  handleErrorResponse statusCode (JObj fields) =
    match handleErrorResponse_new statusCode fields with
    | Some e => ThrowFirmeApiError e
    | None => TypeError_convert
    end.
Proof.
  assert (Hm : New.Error_message (chosen_message fields) = error_message fields).
  { apply Error_message_defined, truthy_defined.
    apply js_or_truthy, js_or_truthy. reflexivity. }
  assert (Hc : forall a (d : string), New.param (js_or a (JStr "UNKNOWN_ERROR")) (JStr d)
                             = js_or a (JStr "UNKNOWN_ERROR")).
  { intros a d. apply param_defined, truthy_defined, js_or_truthy. reflexivity. }
  assert (Hn : forall a d d', New.param (js_coalesce a (JNum d)) (JNum d')
                              = js_coalesce a (JNum d)).
  { intros a d d'. apply param_defined, js_coalesce_defined. }
  assert (Heq : handleErrorResponse_new statusCode fields = classify statusCode fields).
  { unfold handleErrorResponse_new, classify, select, error_code,
      New.AuthenticationError, New.NotFoundError, New.RateLimitError,
      New.InsufficientCreditsError, New.ValidationError, New.ApiError.
    cbv zeta. rewrite !Hm, !Hc, !Hn.
    destruct (error_message fields) as [message |]; simpl;
      repeat match goal with |- context [if ?b then _ else _] => destruct b end;
      reflexivity. }
  split; [exact Heq |]. split; [| split].
  - rewrite Heq. unfold classify, error_message.
    destruct (ToString (chosen_message fields)); simpl; split; congruence.
  - intros e Hnone He. rewrite Heq in He. apply classify_inv in He.
    destruct He as (_ & ->). rewrite select_code.
    unfold error_code, own_property. rewrite Hnone. reflexivity.
  - rewrite Heq. reflexivity.
Qed.

Lemma X14_constructor_defaults_never_apply_witness :
  exists e,
    handleErrorResponse_new 404 [("message", JStr "Company not found")] = Some e /\
    Errors.code e = JStr "UNKNOWN_ERROR".
Proof.
  destruct (X14_constructor_defaults_never_apply 404
              [("message", JStr "Company not found")]) as (_ & _ & Hcode & _).
  exists (NotFoundError "Company not found" (JStr "UNKNOWN_ERROR")).
  split; [reflexivity |].
  apply (Hcode (NotFoundError "Company not found" (JStr "UNKNOWN_ERROR")));
    reflexivity.
Defined.

(** ** Failures without a classified response *)

Lemma request_catch_untyped (this : FirmeApi) (error : Thrown) :
  (forall e, error <> ThrowFirmeApiError e) ->
  exists e,
    request_catch this error = ThrowFirmeApiError e /\
    Errors.statusCode e = 0 /\
    (Errors.code e = JStr "NETWORK_ERROR" \/ Errors.code e = JStr "TIMEOUT").
Proof.
  intros Hne. destruct error as [e | name message | v]; simpl.
  - exfalso. exact (Hne e eq_refl).
  - destruct (String.eqb name "AbortError"); eexists; simpl; auto.
  - eexists; simpl; auto.
Qed.

(** X15. When the transport rejects, or the body of the response does
    not parse, with an error that is not a typed failure, the operation
    throws a failure with status code 0 and machine code NETWORK_ERROR or
    TIMEOUT: the HTTP status of a response with an unparsable body is not
    kept. *)
Theorem X15_transport_failures_report_status_zero
    (this : FirmeApi) (fetch : Fetch) (op : Operation) (init : RequestInit)
    (error : Thrown) :
  In init (issued (run this fetch op)) ->
  (fetch init = Throw error \/
   exists response, fetch init = Return response /\ json response = Throw error) ->
  (forall e, error <> ThrowFirmeApiError e) ->
  exists e,
    outcome (run this fetch op) = Throw (ThrowFirmeApiError e) /\
    Errors.statusCode e = 0 /\
    (Errors.code e = JStr "NETWORK_ERROR" \/ Errors.code e = JStr "TIMEOUT").
Proof.
  intros Hin Hfail Hne.
  rewrite (run_outcome this fetch op init Hin).
  assert (Htry : request_try fetch init = Throw error).
  { destruct Hfail as [Hf | (response & Hf & Hj)].
    - unfold request_try. rewrite Hf. reflexivity.
    - exact (request_try_unparsable fetch init response error Hf Hj). }
  rewrite Htry.
  destruct (request_catch_untyped this error Hne) as (e & -> & Hs & Hc).
  exists e. auto.
Qed.

Lemma X15_transport_failures_report_status_zero_witness :
  exists e,
    outcome (run sample_client (answer_unparsable 502 syntax_error)
               (WithCui OpGetBilant "12345678"))
    = Throw (ThrowFirmeApiError e) /\
    Errors.statusCode e = 0 /\
    (Errors.code e = JStr "NETWORK_ERROR" \/ Errors.code e = JStr "TIMEOUT").
Proof.
  apply (X15_transport_failures_report_status_zero sample_client
           (answer_unparsable 502 syntax_error) (WithCui OpGetBilant "12345678")
           (request_init sample_client "/v1/bilant/12345678" None) syntax_error).
  - left. reflexivity.
  - right. exists {| status := 502; json := Throw syntax_error |}.
    split; reflexivity.
  - intros e. discriminate.
Defined.
